(** * GitHub Actions workflow monitor: a shallow embedding of [main.py]

    The development follows the source file top-down: Python values and
    exceptions, the two provider accessors, the duration formatter, the two
    message composers, the polling loop of [monitor] and the entry point
    [main].  The tracking table [self.monitored_runs] is an insertion-ordered
    dictionary, modelled as an association list whose order is insertion
    order.  Calls to the outside world (provider, notification callback,
    clock) are taken from an environment; what the loop does with them is
    recorded in a log of events.  The lines the program prints, its sleeps
    and the keyboard interrupt that ends the loop are left out. *)

From Stdlib Require Import ZArith List String Ascii Bool Lia DecimalString FinFun.
From Stdlib Require Import DecimalZ DecimalPos.
Import ListNotations.

Local Open Scope list_scope.
Local Open Scope string_scope.

(* ===================================================================== *)
(** ** Python values, truthiness, exceptions *)

(** Scalar values that the provider's JSON puts in the fields the program
    reads ([None], booleans, integers, strings). *)
Inductive pyval : Type :=
| PNone
| PBool (b : bool)
| PInt (z : Z)
| PStr (s : string).

(** [str(v)], as an f-string placeholder formats it. *)
Definition py_str (v : pyval) : string :=
  match v with
  | PNone => "None"
  | PBool true => "True"
  | PBool false => "False"
  | PInt z => NilZero.string_of_int (Z.to_int z)
  | PStr s => s
  end.

(** Truth value of [v] in [if v] and in [all([...])]. *)
Definition py_truthy (v : pyval) : bool :=
  match v with
  | PNone => false
  | PBool b => b
  | PInt z => negb (z =? 0)%Z
  | PStr s => negb (String.eqb s "")
  end.

(** [v == 'lit'] for a string literal. *)
Definition py_eq_str (v : pyval) (lit : string) : bool :=
  match v with
  | PStr s => String.eqb s lit
  | _ => false
  end.

Inductive exn : Type :=
| AttributeError
| TypeError
| ValueError
| KeyError
| CallbackError.

Inductive res (A : Type) : Type :=
| Ok (a : A)
| Raise (e : exn).
Arguments Ok {A} a.
Arguments Raise {A} e.

Definition res_bind {A B : Type} (r : res A) (k : A -> res B) : res B :=
  match r with
  | Ok a => k a
  | Raise e => Raise e
  end.

(** [try: body  except: handler], the bare [except] of [format_duration]. *)
Definition try_except {A : Type} (body : res A) (handler : A) : res A :=
  match body with
  | Ok a => Ok a
  | Raise _ => Ok handler
  end.

Declare Scope res_scope.
Delimit Scope res_scope with res.
Notation "x <- c ;; k" := (res_bind c (fun x => k))
  (at level 61, c at next level, right associativity) : res_scope.

(* ===================================================================== *)
(** ** Strings: Python counts characters, the embedding stores UTF-8 bytes *)

Definition nl : string := String (ascii_of_nat 10) EmptyString.

(** A byte [10xxxxxx] continues a character begun earlier. *)
Definition is_continuation (c : ascii) : bool :=
  let n := nat_of_ascii c in (128 <=? n)%nat && (n <? 192)%nat.

(** [len(s)]: the number of characters. *)
Fixpoint py_len (s : string) : nat :=
  match s with
  | EmptyString => 0
  | String c rest => (if is_continuation c then 0 else 1) + py_len rest
  end.

(** [s[:n]]: the first [n] characters. *)
Fixpoint py_prefix (n : nat) (s : string) : string :=
  match s with
  | EmptyString => EmptyString
  | String c rest =>
      if is_continuation c then String c (py_prefix n rest)
      else match n with
           | O => EmptyString
           | S n' => String c (py_prefix n' rest)
           end
  end.

(** [s.replace('Z', '+00:00')]: every occurrence is replaced. *)
Fixpoint replace_Z (s : string) : string :=
  match s with
  | EmptyString => EmptyString
  | String c rest =>
      if Ascii.eqb c "Z"%char then "+00:00" ++ replace_Z rest
      else String c (replace_Z rest)
  end.

(** [v.replace('Z', '+00:00')]: only [str] has the method. *)
Definition method_replace_Z (v : pyval) : res string :=
  match v with
  | PStr s => Ok (replace_Z s)
  | _ => Raise AttributeError
  end.

(* ===================================================================== *)
(** ** The [datetime] library, as an interface

    [datetime.fromisoformat] and the subtraction of two datetimes belong to
    the Python library, not to the repository.  The formatter is stated over
    any implementation of this interface; [IsoSeconds] below is an executable
    one for the timestamps the provider sends. *)

Class Datetime : Type := {
  datetime : Type;
  (** [datetime.fromisoformat(s)], raising [ValueError] on a string it
      cannot read. *)
  fromisoformat : string -> res datetime;
  (** [int((e - s).total_seconds())]; the subtraction raises [TypeError]
      when one operand carries a zone and the other does not. *)
  int_total_seconds : datetime -> datetime -> res Z
}.

Module IsoSeconds.

Definition digit (c : ascii) : option Z :=
  let n := nat_of_ascii c in
  if (48 <=? n)%nat && (n <=? 57)%nat then Some (Z.of_nat (n - 48)) else None.

Definition num2 (a b : ascii) : option Z :=
  match digit a, digit b with
  | Some x, Some y => Some (10 * x + y)%Z
  | _, _ => None
  end.

Definition num4 (a b c d : ascii) : option Z :=
  match num2 a b, num2 c d with
  | Some x, Some y => Some (100 * x + y)%Z
  | _, _ => None
  end.

Definition is_leap (y : Z) : bool :=
  ((y mod 4 =? 0) && (negb (y mod 100 =? 0) || (y mod 400 =? 0)))%Z.

Definition days_in_month (y m : Z) : Z :=
  (if m =? 2 then (if is_leap y then 29 else 28)
   else if (m =? 4) || (m =? 6) || (m =? 9) || (m =? 11) then 30
   else 31)%Z.

(** Days from 1970-01-01 to the civil date [y]-[m]-[d]. *)
Definition days_from_civil (y m d : Z) : Z :=
  (let y' := if m <=? 2 then y - 1 else y in
   let era := y' / 400 in
   let yoe := y' - era * 400 in
   let mp := if 2 <? m then m - 3 else m + 9 in
   let doy := (153 * mp + 2) / 5 + d - 1 in
   let doe := yoe * 365 + yoe / 4 - yoe / 100 + doy in
   era * 146097 + doe - 719468)%Z.

Definition sign (c : ascii) : option Z :=
  if Ascii.eqb c "+"%char then Some 1%Z
  else if Ascii.eqb c "-"%char then Some (-1)%Z
  else None.

(** Reads [YYYY-MM-DD?HH:MM:SS+HH:MM] into seconds since the epoch.  This is
    the form the provider's timestamps take once [Z] is replaced by
    [+00:00]; [datetime.fromisoformat] reads more forms than this one
    (without a zone, with fractions of a second, a date alone), so this
    library stands for it only on strings of this form and on strings that
    neither reads.  The general statements below hold for every
    [Datetime]. *)
Definition parse (s : string) : res Z :=
  match list_ascii_of_string s with
  | [y1; y2; y3; y4; d1; m1; m2; d2; a1; a2; _; h1; h2; c1; i1; i2; c2;
     s1; s2; sg; o1; o2; c3; p1; p2] =>
      if Ascii.eqb d1 "-"%char && Ascii.eqb d2 "-"%char
         && Ascii.eqb c1 ":"%char && Ascii.eqb c2 ":"%char
         && Ascii.eqb c3 ":"%char
      then
        match num4 y1 y2 y3 y4, num2 m1 m2, num2 a1 a2 with
        | Some y, Some m, Some d =>
            match num2 h1 h2, num2 i1 i2, num2 s1 s2 with
            | Some hh, Some mi, Some ss =>
                match sign sg, num2 o1 o2, num2 p1 p2 with
                | Some sg', Some oh, Some om =>
                    if ((1 <=? y) && (1 <=? m) && (m <=? 12) && (1 <=? d)
                        && (d <=? days_in_month y m) && (hh <? 24)
                        && (mi <? 60) && (ss <? 60) && (oh <? 24)
                        && (om <? 60))%Z
                    then Ok (days_from_civil y m d * 86400 + hh * 3600
                             + mi * 60 + ss - sg' * (oh * 3600 + om * 60))%Z
                    else Raise ValueError
                | _, _, _ => Raise ValueError
                end
            | _, _, _ => Raise ValueError
            end
        | _, _, _ => Raise ValueError
        end
      else Raise ValueError
  | _ => Raise ValueError
  end.

Definition lib : Datetime := {|
  datetime := Z;
  fromisoformat := parse;
  int_total_seconds := fun e s => Ok (e - s)%Z
|}.

End IsoSeconds.

(* ===================================================================== *)
(** ** Run records and the monitor object *)

(** Value of a key holding a nested object ([actor], [head_commit]): JSON
    [null], or an object of which the program reads one key ([login],
    [message]), itself absent or holding a scalar.  These are the values the
    provider's schema gives the two keys; a string, number or list under
    them, on which [.get] would raise [AttributeError] as on [null], and a
    list under [message] are outside this domain. *)
Inductive nested : Type :=
| NestedNull
| NestedDict (field : option pyval).

(** A workflow run as the provider returns it.  [id] and [status] are read
    with [run['...']]; every other key is read with [.get], [None] standing
    for a key that is not in the dictionary.  A record always has its [id]
    and [status], as every run of the provider does: the [KeyError] of
    [run['id']] and [run_details['status']] on a dictionary without them is
    outside this domain. *)
Record run_data : Type := {
  id : Z;
  status : pyval;
  name : option pyval;
  head_branch : option pyval;
  actor : option nested;
  run_number : option pyval;
  head_commit : option nested;
  conclusion : option pyval;
  created_at : option pyval;
  updated_at : option pyval;
  html_url : option pyval
}.

(** [d.get(key, default)] *)
Definition get (field : option pyval) (default : pyval) : pyval :=
  match field with
  | Some v => v
  | None => default
  end.

(** [d.get(key)], whose default is [None]. *)
Definition get_none (field : option pyval) : pyval := get field PNone.

(** [d.get(outer, {}).get(inner, default)]: [None] has no [get]. *)
Definition get_nested (field : option nested) (default : pyval) : res pyval :=
  match field with
  | None => Ok default
  | Some NestedNull => Raise AttributeError
  | Some (NestedDict inner) => Ok (get inner default)
  end.

(** One entry of [self.monitored_runs]. *)
Record tracked : Type := {
  notified_start : bool;
  notified_end : bool
}.

(** The insertion-ordered dictionary [self.monitored_runs]. *)
Definition monitored : Type := list (Z * tracked).

Record GitHubActionsMonitor : Type := {
  repo_owner : pyval;
  repo_name : pyval;
  headers : list (string * string);
  base_url : string;
  monitored_runs : monitored
}.

Definition __init__ (repo_owner repo_name github_token : pyval)
  : res GitHubActionsMonitor :=
  Ok {| repo_owner := repo_owner;
        repo_name := repo_name;
        headers :=
          [ ("Authorization", "Bearer " ++ py_str github_token);
            ("Accept", "application/vnd.github+json");
            ("X-GitHub-Api-Version", "2022-11-28") ];
        base_url :=
          "https://api.github.com/repos/" ++ py_str repo_owner ++ "/"
            ++ py_str repo_name;
        monitored_runs := [] |}.

(* ===================================================================== *)
(** ** Provider accessors *)

(** A GET request: the URL and the query parameters. *)
Record request : Type := {
  url : string;
  params : list (string * pyval)
}.

(** What [requests.get(...)] followed by [raise_for_status()] and [.json()]
    gives: a decoded body, or a [RequestException]. *)
Inductive response (A : Type) : Type :=
| Body (json : A)
| RequestException.
Arguments Body {A} json.
Arguments RequestException {A}.

(** The body of a run listing: its [workflow_runs] key, [None] when the key
    is missing. *)
Definition listing : Type := option (list run_data).

(** [get_workflow_runs]: the listed runs, and the empty list when the key is
    missing or the request fails.  The decoded body is taken to be an object
    whose [workflow_runs], when present, is a list: on a body that is not an
    object the source lets [AttributeError] through, and on a [null]
    [workflow_runs] it returns [None]; neither is covered here. *)
Definition get_workflow_runs (self : GitHubActionsMonitor)
    (http : request -> response listing) (branch status : pyval)
  : list run_data :=
  let url := base_url self ++ "/actions/runs" in
  let params := [("per_page", PInt 10)] in
  let params :=
    if py_truthy branch then (params ++ [("branch", branch)])%list
    else params in
  let params :=
    if py_truthy status then (params ++ [("status", status)])%list
    else params in
  match http {| url := url; params := params |} with
  | Body (Some workflow_runs) => workflow_runs
  | Body None => []
  | RequestException => []
  end.

(** [get_run_details]: the decoded run, and [None] when the request fails. *)
Definition get_run_details (self : GitHubActionsMonitor)
    (http : request -> response run_data) (run_id : Z) : option run_data :=
  let url := base_url self ++ "/actions/runs/" ++ py_str (PInt run_id) in
  match http {| url := url; params := [] |} with
  | Body json => Some json
  | RequestException => None
  end.

(* ===================================================================== *)
(** ** Duration formatter and message composers *)

Section Composers.

Context {DT : Datetime}.

(** [datetime.fromisoformat(t.replace('Z', '+00:00'))], the expression that
    [format_duration] applies to each of its timestamps. *)
Definition parse_timestamp (t : pyval) : res datetime :=
  (s <- method_replace_Z t ;; fromisoformat s)%res.

(** The body of the [try] in [format_duration]; [now] is what
    [datetime.now().astimezone()] reads. *)
Definition format_duration_body (now : datetime)
    (start_time end_time : pyval) : res string :=
  (start <- parse_timestamp start_time ;;
   end_ <- (if py_truthy end_time then parse_timestamp end_time
            else Ok now) ;;
   total_seconds <- int_total_seconds end_ start ;;
   let minutes := (total_seconds / 60)%Z in
   let seconds := (total_seconds mod 60)%Z in
   Ok (if (0 <? minutes)%Z
       then py_str (PInt minutes) ++ "m " ++ py_str (PInt seconds) ++ "s"
       else py_str (PInt seconds) ++ "s"))%res.

Definition format_duration (now : datetime) (start_time end_time : pyval)
  : res string :=
  try_except (format_duration_body now start_time end_time) "Desconocida".

(** [len(commit_msg) > 80] and the slice, for the scalars of [pyval]: of
    these only a string has a length, the others raise [TypeError] at
    [len]. *)
Definition truncate_commit (commit_msg : pyval) : res pyval :=
  match commit_msg with
  | PStr s =>
      if (80 <? py_len s)%nat then Ok (PStr (py_prefix 80 s ++ "..."))
      else Ok commit_msg
  | _ => Raise TypeError
  end.

Definition create_start_message (self : GitHubActionsMonitor)
    (run : run_data) : res string :=
  (let workflow_name := get (name run) (PStr "Workflow") in
   let branch := get (head_branch run) (PStr "rama desconocida") in
   actor <- get_nested (actor run) (PStr "Usuario") ;;
   let run_number := get (run_number run) (PStr "N/A") in
   commit_msg <- get_nested (head_commit run) (PStr "") ;;
   commit_msg <- truncate_commit commit_msg ;;
   Ok ("🚀 **GitHub Action Iniciado**" ++ nl ++ nl
       ++ "**Repo:** " ++ py_str (repo_owner self) ++ "/"
       ++ py_str (repo_name self) ++ nl
       ++ "**Workflow:** " ++ py_str workflow_name ++ " (#"
       ++ py_str run_number ++ ")" ++ nl
       ++ "**Rama:** " ++ py_str branch ++ nl
       ++ "**Por:** " ++ py_str actor ++ nl
       ++ "**Commit:** " ++ py_str commit_msg ++ nl ++ nl
       ++ "[Ver en GitHub](" ++ py_str (get (html_url run) (PStr "#"))
       ++ ")"))%res.

Definition status_map : list (string * (string * string)) :=
  [ ("success", ("✅", "EXITOSO"));
    ("failure", ("❌", "FALLIDO"));
    ("cancelled", ("⏹️", "CANCELADO"));
    ("skipped", ("⏭️", "OMITIDO")) ].

Fixpoint lookup_str {V : Type} (key : string) (d : list (string * V))
  : option V :=
  match d with
  | [] => None
  | (k, v) :: rest => if String.eqb k key then Some v else lookup_str key rest
  end.

(** [status_map.get(conclusion, default)]: the keys are strings, so a
    value of another type finds none of them. *)
Definition status_map_get (conclusion : pyval) (default : string * string)
  : string * string :=
  match conclusion with
  | PStr s =>
      match lookup_str s status_map with
      | Some found => found
      | None => default
      end
  | _ => default
  end.

(** The first line of the completion message. *)
Definition completion_header (emoji status_text : string) : string :=
  emoji ++ " **GitHub Action " ++ status_text ++ "**".

Definition create_completion_message (self : GitHubActionsMonitor)
    (now : datetime) (run : run_data) : res string :=
  (let workflow_name := get (name run) (PStr "Workflow") in
   let branch := get (head_branch run) (PStr "rama desconocida") in
   let conclusion := get (conclusion run) (PStr "unknown") in
   let run_number := get (run_number run) (PStr "N/A") in
   let '(emoji, status_text) :=
     status_map_get conclusion ("⚠️", "COMPLETADO") in
   duration <- format_duration now (get_none (created_at run))
                 (get_none (updated_at run)) ;;
   Ok (completion_header emoji status_text ++ nl ++ nl
       ++ "**Repo:** " ++ py_str (repo_owner self) ++ "/"
       ++ py_str (repo_name self) ++ nl
       ++ "**Workflow:** " ++ py_str workflow_name ++ " (#"
       ++ py_str run_number ++ ")" ++ nl
       ++ "**Rama:** " ++ py_str branch ++ nl
       ++ "**Duración:** " ++ duration ++ nl ++ nl
       ++ "[Ver en GitHub](" ++ py_str (get (html_url run) (PStr "#"))
       ++ ")"))%res.

End Composers.

(* ===================================================================== *)
(** ** The tracking table: an insertion-ordered dictionary *)

(** [d.get(key)] on the table; [None] when the key is not tracked. *)
Fixpoint dict_get (key : Z) (d : monitored) : option tracked :=
  match d with
  | [] => None
  | (k, v) :: rest => if (k =? key)%Z then Some v else dict_get key rest
  end.

(** [key in d] *)
Definition dict_contains (key : Z) (d : monitored) : bool :=
  match dict_get key d with
  | Some _ => true
  | None => false
  end.

(** [d[key] = v]: a tracked key keeps its place, a new one goes last. *)
Fixpoint dict_set (key : Z) (v : tracked) (d : monitored) : monitored :=
  match d with
  | [] => [(key, v)]
  | (k, v') :: rest =>
      if (k =? key)%Z then (k, v) :: rest else (k, v') :: dict_set key v rest
  end.

(** [del d[key]]; [None] stands for the [KeyError] of a missing key. *)
Fixpoint dict_del (key : Z) (d : monitored) : option monitored :=
  match d with
  | [] => None
  | (k, v) :: rest =>
      if (k =? key)%Z then Some rest
      else match dict_del key rest with
           | Some rest' => Some ((k, v) :: rest')
           | None => None
           end
  end.

(** [list(d.keys())] *)
Definition dict_keys (d : monitored) : list Z := map fst d.

(** [l[:-n]]: all but the last [n] elements. *)
Definition drop_last {A : Type} (n : nat) (l : list A) : list A :=
  firstn (List.length l - n) l.

(** The value of a freshly tracked run. *)
Definition new_entry : tracked :=
  {| notified_start := false; notified_end := false |}.

(* ===================================================================== *)
(** ** Events and the monad of the polling loop *)

Inductive kind : Type :=
| StartNotice
| EndNotice.

(** What one cycle does, in the order it does it: a run is entered into the
    table, the details of a run are requested, the callback is called with a
    message and returns ([Sent]) or raises ([SendFailed]). *)
Inductive event : Type :=
| Tracked (run_id : Z) (entry : tracked)
| Fetched (run_id : Z)
| Sent (k : kind) (run_id : Z) (message : string)
| SendFailed (k : kind) (run_id : Z) (message : string).

(** A computation over the table that may raise and that logs events. The
    table and the log survive an exception: the dictionary is mutated in
    place. *)
Definition M (A : Type) : Type := monitored -> res A * monitored * list event.

Definition ret {A : Type} (a : A) : M A := fun d => (Ok a, d, []).

Definition bind {A B : Type} (c : M A) (k : A -> M B) : M B :=
  fun d =>
    match c d with
    | (Ok a, d1, log1) =>
        match k a d1 with
        | (r, d2, log2) => (r, d2, (log1 ++ log2)%list)
        end
    | (Raise e, d1, log1) => (Raise e, d1, log1)
    end.

Declare Scope monitor_scope.
Delimit Scope monitor_scope with M.
Notation "x <- c ;; k" := (bind c (fun x => k))
  (at level 61, c at next level, right associativity) : monitor_scope.
Notation "c ;; k" := (bind c (fun _ => k))
  (at level 61, right associativity) : monitor_scope.

Definition lift {A : Type} (r : res A) : M A := fun d => (r, d, []).

Definition log_event (e : event) : M unit := fun d => (Ok tt, d, [e]).

(** [run_id in self.monitored_runs] *)
Definition contains (run_id : Z) : M bool :=
  fun d => (Ok (dict_contains run_id d), d, []).

(** [self.monitored_runs[run_id]], a [KeyError] when it is not tracked. *)
Definition getitem (run_id : Z) : M tracked :=
  fun d =>
    match dict_get run_id d with
    | Some entry => (Ok entry, d, [])
    | None => (Raise KeyError, d, [])
    end.

(** [self.monitored_runs[run_id] = entry] *)
Definition setitem (run_id : Z) (entry : tracked) : M unit :=
  fun d => (Ok tt, dict_set run_id entry d, []).

(** [del self.monitored_runs[run_id]] *)
Definition delitem (run_id : Z) : M unit :=
  fun d =>
    match dict_del run_id d with
    | Some d' => (Ok tt, d', [])
    | None => (Raise KeyError, d, [])
    end.

(** [list(self.monitored_runs.keys())] *)
Definition keys : M (list Z) := fun d => (Ok (dict_keys d), d, []).

(** [len(self.monitored_runs)] *)
Definition len : M nat := fun d => (Ok (List.length d), d, []).

(** [for x in xs: body(x)]; an exception leaves the loop. *)
Fixpoint for_each {A : Type} (xs : list A) (body : A -> M unit) : M unit :=
  match xs with
  | [] => ret tt
  | x :: rest => (body x ;; for_each rest body)%M
  end.

(** The notification callback: it returns or it raises. *)
Definition callback : Type := string -> res unit.

(** [send_notification(message)] *)
Definition call (send : callback) (k : kind) (run_id : Z) (message : string)
  : M unit :=
  fun d =>
    match send message with
    | Ok _ => (Ok tt, d, [Sent k run_id message])
    | Raise e => (Raise e, d, [SendFailed k run_id message])
    end.

(* ===================================================================== *)
(** ** [monitor]: one cycle of the loop, and the loop *)

Section Monitor.

Context {DT : Datetime}.

(** What the outside world answers during one cycle: the provider to the
    two kinds of request, and the clock. *)
Record world : Type := {
  http_list : request -> response listing;
  http_run : request -> response run_data;
  now : datetime
}.

(** Body of the loop over [active_runs] ("Procesar workflows nuevos"). *)
Definition process_new_run (self : GitHubActionsMonitor)
    (send_notification : option callback) (run : run_data) : M unit :=
  (let run_id := id run in
   known <- contains run_id ;;
   if negb known then
     setitem run_id new_entry ;;
     log_event (Tracked run_id new_entry) ;;
     match send_notification with
     | Some send =>
         message <- lift (create_start_message self run) ;;
         call send StartNotice run_id message ;;
         entry <- getitem run_id ;;
         setitem run_id {| notified_start := true;
                           notified_end := notified_end entry |}
     | None => ret tt
     end
   else ret tt)%M.

(** Body of the loop over the tracked identifiers ("Verificar workflows
    completados"). *)
Definition check_completed_run (self : GitHubActionsMonitor)
    (send_notification : option callback) (w : world) (run_id : Z)
  : M unit :=
  (entry <- getitem run_id ;;
   if notified_end entry then ret tt
   else
     log_event (Fetched run_id) ;;
     match get_run_details self (http_run w) run_id with
     | Some run_details =>
         if py_eq_str (status run_details) "completed" then
           match send_notification with
           | Some send =>
               message <-
                 lift (create_completion_message self (now w) run_details) ;;
               call send EndNotice run_id message ;;
               entry <- getitem run_id ;;
               setitem run_id {| notified_start := notified_start entry;
                                 notified_end := true |}
           | None => ret tt
           end
         else ret tt
     | None => ret tt
     end)%M.

(** "Limpiar workflows antiguos" *)
Definition cleanup_old_runs : M unit :=
  (n <- len ;;
   if (50 <? n)%nat then
     all_keys <- keys ;;
     let old_runs := drop_last 30 all_keys in
     for_each old_runs delitem
   else ret tt)%M.

(** The three loops of one cycle, without its closing [time.sleep]. *)
Definition process_new_runs (self : GitHubActionsMonitor)
    (send_notification : option callback) (active_runs : list run_data)
  : M unit :=
  for_each active_runs (process_new_run self send_notification).

Definition check_completed_runs (self : GitHubActionsMonitor)
    (send_notification : option callback) (w : world) : M unit :=
  (run_ids <- keys ;;
   for_each run_ids (check_completed_run self send_notification w))%M.

(** [active_runs] of one cycle. *)
Definition active_runs (self : GitHubActionsMonitor) (branch : pyval)
    (w : world) : list run_data :=
  (get_workflow_runs self (http_list w) branch (PStr "queued")
   ++ get_workflow_runs self (http_list w) branch (PStr "in_progress"))%list.

(** The body of [while True], inside the [try]. *)
Definition monitor_cycle (self : GitHubActionsMonitor) (branch : pyval)
    (send_notification : option callback) (w : world) : M unit :=
  (process_new_runs self send_notification (active_runs self branch w) ;;
   check_completed_runs self send_notification w ;;
   cleanup_old_runs)%M.

(** The loop, for as many cycles as worlds are given.  A cycle that raises
    is caught by [except Exception]: the loop sleeps and goes on with the
    table as the cycle left it.  The printed lines and the sleeps are not
    modelled. *)
Fixpoint monitor_loop (self : GitHubActionsMonitor) (branch : pyval)
    (send_notification : option callback) (worlds : list world)
    (d : monitored) : monitored * list event :=
  match worlds with
  | [] => (d, [])
  | w :: rest =>
      match monitor_cycle self branch send_notification w d with
      | (_, d1, log1) =>
          match monitor_loop self branch send_notification rest d1 with
          | (d2, log2) => (d2, (log1 ++ log2)%list)
          end
      end
  end.

Definition monitor (self : GitHubActionsMonitor) (branch : pyval)
    (send_notification : option callback) (worlds : list world)
  : monitored * list event :=
  monitor_loop self branch send_notification worlds (monitored_runs self).

End Monitor.

(* ===================================================================== *)
(** ** [main] *)

(** How [main] ends: it prints the configuration error and returns, or it
    builds the monitor and enters [monitor]. *)
Inductive main_outcome : Type :=
| ConfigError (printed : string)
| Monitoring (self : GitHubActionsMonitor) (branch : pyval)
    (poll_interval : Z).

(** [all([...])] *)
Definition all (xs : list pyval) : bool := forallb py_truthy xs.

(** [main], with its three configuration constants as arguments. *)
Definition main_with (REPO_OWNER REPO_NAME GITHUB_TOKEN : pyval)
  : res main_outcome :=
  let BRANCH := PStr "main" in
  let POLL_INTERVAL := 30%Z in
  if negb (all [REPO_OWNER; REPO_NAME; GITHUB_TOKEN]) then
    Ok (ConfigError "❌ Error: Configura REPO_OWNER, REPO_NAME y GITHUB_TOKEN")
  else
    (self <- __init__ REPO_OWNER REPO_NAME GITHUB_TOKEN ;;
     Ok (Monitoring self BRANCH POLL_INTERVAL))%res.

Definition main : res main_outcome :=
  main_with (PStr "hdelafuente") (PStr "github-workflow-monitor") (PStr "").

(* ===================================================================== *)
(** ** Vocabulary of the statements *)

(** [sub in s] *)
Definition str_contains (sub s : string) : bool :=
  match String.index 0 sub s with
  | Some _ => true
  | None => false
  end.

(** The table of [create_completion_message] read row by row: the symbol and
    the label of each conclusion, and those of every other value. *)
Definition conclusion_table (conclusion : pyval) : string * string :=
  if py_eq_str conclusion "success" then ("✅", "EXITOSO")
  else if py_eq_str conclusion "failure" then ("❌", "FALLIDO")
  else if py_eq_str conclusion "cancelled" then ("⏹️", "CANCELADO")
  else if py_eq_str conclusion "skipped" then ("⏭️", "OMITIDO")
  else ("⚠️", "COMPLETADO").

(** A list of runs with every identifier kept at its first position only. *)
Fixpoint first_seen (runs : list run_data) : list run_data :=
  match runs with
  | [] => []
  | run :: rest =>
      run :: filter (fun r => negb (id r =? id run)%Z) (first_seen rest)
  end.

(** [run] is listed under none of the identifiers [seen]. *)
Definition unseen (seen : list Z) (run : run_data) : bool :=
  negb (existsb (Z.eqb (id run)) seen).


Definition is_notice (e : event) : bool :=
  match e with
  | Sent _ _ _ | SendFailed _ _ _ => true
  | _ => false
  end.

Definition is_fetch_of (run_id : Z) (e : event) : bool :=
  match e with
  | Fetched r => (r =? run_id)%Z
  | _ => false
  end.

Definition is_tracked_of (run_id : Z) (e : event) : bool :=
  match e with
  | Tracked r _ => (r =? run_id)%Z
  | _ => false
  end.

Definition is_sent_of (k : kind) (run_id : Z) (e : event) : bool :=
  match e, k with
  | Sent StartNotice r _, StartNotice => (r =? run_id)%Z
  | Sent EndNotice r _, EndNotice => (r =? run_id)%Z
  | _, _ => false
  end.

(** Events of a log that concern the callback and the run [run_id]. *)
Definition is_notice_of (run_id : Z) (e : event) : bool :=
  match e with
  | Sent _ r _ | SendFailed _ r _ => (r =? run_id)%Z
  | _ => false
  end.

(** How many times the log enters [run_id] into the table. *)
Definition times_tracked (run_id : Z) (log : list event) : nat :=
  List.length (filter (is_tracked_of run_id) log).


(** Whether the table holds [run_id] with its completion still to notify. *)
Definition pending (run_id : Z) (d : monitored) : nat :=
  match dict_get run_id d with
  | Some entry => if notified_end entry then 0 else 1
  | None => 0
  end.


(** The entry of a new run once the new-run loop has gone through it: the
    start flag is set when there is a callback, and it has returned. *)
Definition entry_after_start (send_notification : option callback)
  : tracked :=
  {| notified_start := match send_notification with
                       | Some _ => true
                       | None => false
                       end;
     notified_end := false |}.

(** Every entry of the table still has both flags unset. *)
Definition all_unnotified (d : monitored) : Prop :=
  forall k entry, In (k, entry) d -> entry = new_entry.

(** Closes the case of a turn of the completed-run check that only requested
    the details of its run. *)
Ltac only_fetched :=
  intros [= <- <- <-]; left; split;
  [reflexivity | intros ? [<- | []]; auto].

(* ===================================================================== *)
(** ** Sample data *)

Module Sample.

Definition self : GitHubActionsMonitor :=
  {| repo_owner := PStr "hdelafuente";
     repo_name := PStr "github-workflow-monitor";
     headers := [ ("Authorization", "Bearer t0ken");
                  ("Accept", "application/vnd.github+json");
                  ("X-GitHub-Api-Version", "2022-11-28") ];
     base_url :=
       "https://api.github.com/repos/hdelafuente/github-workflow-monitor";
     monitored_runs := [] |}.

Definition run (run_id : Z) (run_status : string) (outcome : option pyval)
  : run_data :=
  {| id := run_id;
     status := PStr run_status;
     name := Some (PStr "CI");
     head_branch := Some (PStr "main");
     actor := Some (NestedDict (Some (PStr "octocat")));
     run_number := Some (PInt run_id);
     head_commit := Some (NestedDict (Some (PStr "Fix the build")));
     conclusion := outcome;
     created_at := Some (PStr "2024-01-01T00:00:00Z");
     updated_at := Some (PStr "2024-01-01T00:01:05Z");
     html_url :=
       Some (PStr ("https://github.com/hdelafuente/github-workflow-monitor"
                   ++ "/actions/runs/" ++ py_str (PInt run_id))) |}.

Definition queued_run (run_id : Z) : run_data := run run_id "queued" None.

Definition running_run (run_id : Z) : run_data :=
  run run_id "in_progress" None.

Definition completed_run (run_id : Z) : run_data :=
  run run_id "completed" (Some (PStr "success")).

Definition failed_run : run_data :=
  run 1 "completed" (Some (PStr "failure")).

(** A provider that lists [queued] and [in_progress] under the two
    statuses. *)
Definition lists (queued in_progress : list run_data)
  : request -> response listing :=
  fun req =>
    match lookup_str "status" (params req) with
    | Some (PStr "queued") => Body (Some queued)
    | Some (PStr "in_progress") => Body (Some in_progress)
    | _ => Body None
    end.

(** A provider that answers the details request of each run it knows, found
    by the identifier that ends the URL; the request of any other run
    fails. *)
Definition details (known : list run_data) : request -> response run_data :=
  fun req =>
    match find (fun r =>
                  String.eqb (url req)
                    (base_url self ++ "/actions/runs/" ++ py_str (PInt (id r))))
            known with
    | Some r => Body r
    | None => RequestException
    end.

(** A provider that cannot be reached. *)
Definition unreachable : request -> response run_data :=
  fun _ => RequestException.

(** The identifiers [first], [first + 1], ..., [count] of them. *)
Definition ids (first : Z) (count : nat) : list Z :=
  map (fun i => (first + Z.of_nat i)%Z) (seq 0 count).

(** A cycle in which the provider lists the runs [queued] and [in_progress]
    and knows, besides them, the runs [completed] as completed. *)
Definition cycle (queued in_progress completed : list Z)
  : @world IsoSeconds.lib :=
  @Build_world IsoSeconds.lib
    (lists (map queued_run queued) (map running_run in_progress))
    (details (map completed_run completed ++ map queued_run queued
              ++ map running_run in_progress)%list)
    1704067265%Z.


(** A cycle in which run 1 is listed both as queued and as in progress. *)
Definition listed_twice : @world IsoSeconds.lib :=
  @Build_world IsoSeconds.lib (lists [queued_run 1] [running_run 1])
    unreachable 1704067265%Z.

(** Three cycles, of at most ten queued and ten running runs each, that
    bring 51 runs into the table; the runs of a cycle have completed by the
    next one. *)
Definition fifty_one_runs : list (@world IsoSeconds.lib) :=
  [ cycle (ids 1 10) (ids 11 10) [];
    cycle (ids 21 10) (ids 31 10) (ids 1 20);
    cycle (ids 41 10) [51%Z] (ids 21 20) ].

(** Run 1 is run again, under the same identifier, and completes again. *)
Definition run_again : list (@world IsoSeconds.lib) :=
  [ cycle [1%Z] [] []; cycle [] [] [1%Z] ].

(** A callback that always returns. *)
Definition sink : callback := fun _ => Ok tt.

(** A table of [count] entries keyed [1..count]. *)
Definition table (count : nat) : monitored :=
  map (fun i => (i, new_entry)) (ids 1 count).

End Sample.

(* ===================================================================== *)
(** ** Vocabulary of the further properties *)

(** The run an event is about. *)
Definition event_run (e : event) : Z :=
  match e with
  | Tracked run_id _ => run_id
  | Fetched run_id => run_id
  | Sent _ run_id _ => run_id
  | SendFailed _ run_id _ => run_id
  end.

(** How many start notifications the callback took for [run_id]. *)
Definition starts_sent (run_id : Z) (log : list event) : nat :=
  List.length (filter (is_sent_of StartNotice run_id) log).

(** How the entry of one identifier can differ between two tables when the
    identifier was not entered anew in between: it is gone, or it is there
    with the same start flag and a completion flag that was not unset. *)
Definition ages (before after : option tracked) : Prop :=
  after = None
  \/ exists e e',
       before = Some e /\ after = Some e'
       /\ notified_start e' = notified_start e
       /\ (notified_end e = true -> notified_end e' = true).

(** A computation that, unless it enters [run_id] anew, lets its entry only
    age, and keeps the keys of the table pairwise distinct. *)
Definition undisturbed (run_id : Z) {A : Type} (c : M A) : Prop :=
  forall d r d' log,
    NoDup (dict_keys d) ->
    c d = (r, d', log) ->
    NoDup (dict_keys d')
    /\ (times_tracked run_id log = 0%nat ->
        ages (dict_get run_id d) (dict_get run_id d')).

(** A computation in which every start notification for [run_id] comes with
    an entry of [run_id] into the table. *)
Definition starts_accounted (run_id : Z) {A : Type} (c : M A) : Prop :=
  forall d r d' log,
    c d = (r, d', log) ->
    (starts_sent run_id log <= times_tracked run_id log)%nat.

(** A computation whose events are all about runs of [allowed] or about
    runs already tracked, and that tracks no other run. *)
Definition confined (allowed : list Z) {A : Type} (c : M A) : Prop :=
  forall d r d' log,
    c d = (r, d', log) ->
    (forall e, In e log ->
       In (event_run e) (dict_keys d) \/ In (event_run e) allowed)
    /\ (forall key, In key (dict_keys d') ->
          In key (dict_keys d) \/ In key allowed).

(** A commit message of one hundred characters, five of them accented. *)
Definition long_commit_message : string :=
  "Añade la comprobación de los límites de la tabla y corrige la expulsión de las entradas más antiguas".

(** The runs whose details a log requests, in the order of the requests. *)
Fixpoint fetched (log : list event) : list Z :=
  match log with
  | [] => []
  | Fetched run_id :: rest => run_id :: fetched rest
  | _ :: rest => fetched rest
  end.

(** Whether the table holds [run_id] with its completion flag unset. *)
Definition awaits_completion (d : monitored) (run_id : Z) : bool :=
  match dict_get run_id d with
  | Some entry => negb (notified_end entry)
  | None => false
  end.

(** A queued run whose [head_commit] is null: its start message cannot be
    composed. *)
Definition null_commit_run (run_id : Z) : run_data :=
  {| id := run_id;
     status := PStr "queued";
     name := Some (PStr "CI");
     head_branch := Some (PStr "main");
     actor := Some (NestedDict (Some (PStr "octocat")));
     run_number := Some (PInt run_id);
     head_commit := Some NestedNull;
     conclusion := None;
     created_at := Some (PStr "2024-01-01T00:00:00Z");
     updated_at := Some (PStr "2024-01-01T00:01:05Z");
     html_url := None |}.




(* ===================================================================== *)
(** * Properties *)

(* ===================================================================== *)
(** ** The duration formatter *)

Section FormatDuration.

Context {DT : Datetime}.

Lemma try_except_returns {A : Type} (body : res A) (handler : A) :
  exists a, try_except body handler = Ok a.
Proof. destruct body; simpl; eauto. Qed.


Lemma format_duration_body_start_fails now start_time end_time e :
  parse_timestamp start_time = Raise e ->
  format_duration_body now start_time end_time = Raise e.
Proof. unfold format_duration_body. intros ->. reflexivity. Qed.



End FormatDuration.



Example format_duration_minutes :
  format_duration (DT := IsoSeconds.lib) 0%Z (PStr "2024-01-01T00:00:00Z")
    (PStr "2024-01-01T00:01:05Z") = Ok "1m 5s".
Proof. reflexivity. Qed.

Example format_duration_zero :
  format_duration (DT := IsoSeconds.lib) 0%Z (PStr "2024-01-01T00:00:00Z")
    (PStr "2024-01-01T00:00:00Z") = Ok "0s".
Proof. reflexivity. Qed.

(** An empty end timestamp is not parsed: the clock is read instead. *)
Example format_duration_empty_end :
  format_duration (DT := IsoSeconds.lib) 1704067207%Z
    (PStr "2024-01-01T00:00:00Z") (PStr "") = Ok "7s".
Proof. reflexivity. Qed.

(* ===================================================================== *)
(** ** The completion message *)

Section CompletionMessage.

Context {DT : Datetime}.

Lemma status_map_get_table (conclusion : pyval) :
  status_map_get conclusion ("⚠️", "COMPLETADO") = conclusion_table conclusion.
Proof.
  destruct conclusion as [ | b | z | s]; try reflexivity.
  unfold status_map_get, conclusion_table, py_eq_str, status_map, lookup_str.
  rewrite (String.eqb_sym "success" s), (String.eqb_sym "failure" s),
    (String.eqb_sym "cancelled" s), (String.eqb_sym "skipped" s).
  destruct (String.eqb s "success"); [reflexivity | ].
  destruct (String.eqb s "failure"); [reflexivity | ].
  destruct (String.eqb s "cancelled"); [reflexivity | ].
  destruct (String.eqb s "skipped"); reflexivity.
Qed.

Lemma conclusion_table_cases (conclusion : pyval) :
  In (conclusion_table conclusion)
    [ ("✅", "EXITOSO"); ("❌", "FALLIDO"); ("⏹️", "CANCELADO");
      ("⏭️", "OMITIDO"); ("⚠️", "COMPLETADO") ].
Proof.
  unfold conclusion_table.
  destruct (py_eq_str conclusion "success"); [simpl; tauto | ].
  destruct (py_eq_str conclusion "failure"); [simpl; tauto | ].
  destruct (py_eq_str conclusion "cancelled"); [simpl; tauto | ].
  destruct (py_eq_str conclusion "skipped"); simpl; tauto.
Qed.

Lemma create_completion_message_returns self now run :
  exists rest,
    create_completion_message self now run
    = Ok (completion_header
            (fst (conclusion_table (get (conclusion run) (PStr "unknown"))))
            (snd (conclusion_table (get (conclusion run) (PStr "unknown"))))
          ++ rest).
Proof.
  unfold create_completion_message.
  rewrite status_map_get_table.
  destruct (conclusion_table (get (conclusion run) (PStr "unknown")))
    as [emoji status_text].
  destruct (try_except_returns
              (format_duration_body now (get_none (created_at run))
                 (get_none (updated_at run))) "Desconocida") as [text Htext].
  unfold format_duration. rewrite Htext. simpl.
  eexists. reflexivity.
Qed.

(** C6 (as the code has it): the completion message is composed for every
    run, and it opens with the symbol and the label that the table gives to
    the run's conclusion: success -> (✅, EXITOSO), failure -> (❌, FALLIDO),
    cancelled -> (⏹️, CANCELADO), skipped -> (⏭️, OMITIDO), and every other
    value, a missing conclusion included -> (⚠️, COMPLETADO).  The message
    therefore contains that symbol and that label. *)
Theorem completion_message_conclusion_table
    (self : GitHubActionsMonitor) (now : datetime) (run : run_data) :
  exists message rest,
    create_completion_message self now run = Ok message
    /\ conclusion_table (PStr "success") = ("✅", "EXITOSO")
    /\ conclusion_table (PStr "failure") = ("❌", "FALLIDO")
    /\ conclusion_table (PStr "cancelled") = ("⏹️", "CANCELADO")
    /\ conclusion_table (PStr "skipped") = ("⏭️", "OMITIDO")
    /\ (forall other,
          py_eq_str other "success" = false ->
          py_eq_str other "failure" = false ->
          py_eq_str other "cancelled" = false ->
          py_eq_str other "skipped" = false ->
          conclusion_table other = ("⚠️", "COMPLETADO"))
    /\ let '(emoji, status_text) :=
         conclusion_table (get (conclusion run) (PStr "unknown")) in
       message = emoji ++ " **GitHub Action " ++ status_text ++ "**" ++ rest
       /\ str_contains emoji message = true
       /\ str_contains status_text message = true.
Proof.
  destruct (create_completion_message_returns self now run) as [rest Hmsg].
  eexists. exists rest. split; [exact Hmsg | ].
  repeat (split; [reflexivity | ]).
  split.
  { intros other H1 H2 H3 H4. unfold conclusion_table.
    rewrite H1, H2, H3, H4. reflexivity. }
  pose proof (conclusion_table_cases (get (conclusion run) (PStr "unknown")))
    as Hcases.
  destruct (conclusion_table (get (conclusion run) (PStr "unknown")))
    as [emoji status_text].
  simpl in Hcases.
  destruct Hcases as [H | [H | [H | [H | [H | []]]]]];
    injection H as <- <-; repeat split; vm_compute; reflexivity.
Qed.

End CompletionMessage.

(** The message of a failed run carries ❌ and the label FALLIDO; the word
    FAILED is not in it. *)
Lemma completion_message_failure_label :
  exists message,
    create_completion_message (DT := IsoSeconds.lib) Sample.self 0%Z
      Sample.failed_run = Ok message
    /\ str_contains "❌" message = true
    /\ str_contains "FALLIDO" message = true
    /\ str_contains "FAILED" message = false.
Proof. eexists. repeat split; vm_compute; reflexivity. Qed.

(* ===================================================================== *)
(** ** Construction and the configuration check of [main] *)

Lemma all_three (a b c : pyval) :
  all [a; b; c] = true
  <-> py_truthy a = true /\ py_truthy b = true /\ py_truthy c = true.
Proof.
  unfold all. simpl. rewrite !andb_true_iff. tauto.
Qed.

Lemma py_truthy_str (s : string) : py_truthy (PStr s) = true <-> s <> "".
Proof.
  simpl. rewrite negb_true_iff. split.
  - intros H ->. discriminate.
  - intros H. apply String.eqb_neq. exact H.
Qed.

(** C9 (as the code has it): the constructor checks nothing and builds a
    monitor with an empty table from any three values; it is [main] that
    tests the configuration, and it builds the monitor exactly when owner,
    name and credential are all truthy (for strings: non-empty), printing an
    error and returning without a monitor otherwise.  With the constants the
    file ships, whose credential is empty, [main] takes the error path. *)
Theorem construction_is_guarded_by_main
    (REPO_OWNER REPO_NAME GITHUB_TOKEN : pyval) :
  (exists self,
      __init__ REPO_OWNER REPO_NAME GITHUB_TOKEN = Ok self
      /\ repo_owner self = REPO_OWNER
      /\ repo_name self = REPO_NAME
      /\ monitored_runs self = [])
  /\ (forall self branch poll_interval,
        main_with REPO_OWNER REPO_NAME GITHUB_TOKEN
        = Ok (Monitoring self branch poll_interval)
        <-> (py_truthy REPO_OWNER = true /\ py_truthy REPO_NAME = true
             /\ py_truthy GITHUB_TOKEN = true)
            /\ __init__ REPO_OWNER REPO_NAME GITHUB_TOKEN = Ok self
            /\ branch = PStr "main" /\ poll_interval = 30%Z)
  /\ ((exists printed,
          main_with REPO_OWNER REPO_NAME GITHUB_TOKEN
          = Ok (ConfigError printed))
      <-> ~ (py_truthy REPO_OWNER = true /\ py_truthy REPO_NAME = true
             /\ py_truthy GITHUB_TOKEN = true))
  /\ (forall s, py_truthy (PStr s) = true <-> s <> "")
  /\ py_truthy PNone = false
  /\ exists printed, main = Ok (ConfigError printed).
Proof.
  split; [ | split; [ | split; [ | split; [ | split]]]].
  - eexists. split; [reflexivity | ]. simpl. auto.
  - intros self branch poll_interval. unfold main_with.
    rewrite <- all_three.
    destruct (all [REPO_OWNER; REPO_NAME; GITHUB_TOKEN]); simpl.
    + split.
      * intros H. injection H as <- <- <-. auto.
      * intros [_ [H [-> ->]]]. unfold __init__ in H.
        injection H as <-. reflexivity.
    + split; [discriminate | intros [H _]; discriminate].
  - unfold main_with. rewrite <- all_three.
    destruct (all [REPO_OWNER; REPO_NAME; GITHUB_TOKEN]); simpl.
    + split; [intros [printed H]; discriminate | intros H; now elim H].
    + split; [intros _; discriminate | intros _; eexists; reflexivity].
  - apply py_truthy_str.
  - reflexivity.
  - eexists. reflexivity.
Qed.

(** The constructor accepts an empty owner, name and credential, and absent
    ones as well. *)
Lemma constructor_accepts_empty_configuration :
  (exists self, __init__ (PStr "") (PStr "") (PStr "") = Ok self)
  /\ (exists self, __init__ PNone PNone PNone = Ok self).
Proof. split; eexists; reflexivity. Qed.

(* ===================================================================== *)
(** ** The tracking table *)

Lemma dict_contains_get (key : Z) (d : monitored) :
  dict_contains key d = true <-> exists entry, dict_get key d = Some entry.
Proof.
  unfold dict_contains. destruct (dict_get key d) as [entry | ].
  - split; eauto.
  - split; [discriminate | intros [entry H]; discriminate].
Qed.

Lemma dict_contains_false (key : Z) (d : monitored) :
  dict_contains key d = false <-> dict_get key d = None.
Proof.
  unfold dict_contains. destruct (dict_get key d); split; congruence.
Qed.

Lemma dict_get_none_keys (key : Z) (d : monitored) :
  dict_get key d = None <-> ~ In key (dict_keys d).
Proof.
  induction d as [ | [k v] d IH]; simpl.
  - tauto.
  - destruct (Z.eqb_spec k key) as [-> | Hne].
    + split; [discriminate | intros H; elim H; auto].
    + rewrite IH. split; [intros H [Hk | Hin]; auto | auto].
Qed.

Lemma dict_contains_keys (key : Z) (d : monitored) :
  dict_contains key d = true <-> In key (dict_keys d).
Proof.
  destruct (dict_contains key d) eqn:H.
  - split; [intros _ | reflexivity].
    destruct (in_dec Z.eq_dec key (dict_keys d)) as [Hin | Hout]; auto.
    apply dict_get_none_keys, dict_contains_false in Hout. congruence.
  - split; [discriminate | intros Hin].
    apply dict_contains_false, dict_get_none_keys in H. contradiction.
Qed.

Lemma dict_get_app (key : Z) (d1 d2 : monitored) :
  dict_get key (d1 ++ d2)%list
  = match dict_get key d1 with
    | Some entry => Some entry
    | None => dict_get key d2
    end.
Proof.
  induction d1 as [ | [k v] d1 IH]; simpl; [reflexivity | ].
  destruct (k =? key)%Z; auto.
Qed.

Lemma dict_set_fresh (key : Z) (v : tracked) (d : monitored) :
  dict_get key d = None -> dict_set key v d = (d ++ [(key, v)])%list.
Proof.
  induction d as [ | [k v'] d IH]; simpl; [reflexivity | ].
  destruct (k =? key)%Z; [discriminate | ].
  intros H. rewrite IH by exact H. reflexivity.
Qed.

Lemma dict_set_last (key : Z) (v v' : tracked) (d : monitored) :
  dict_get key d = None ->
  dict_set key v' (d ++ [(key, v)])%list = (d ++ [(key, v')])%list.
Proof.
  induction d as [ | [k w] d IH]; simpl.
  - rewrite Z.eqb_refl. reflexivity.
  - destruct (k =? key)%Z; [discriminate | ].
    intros H. rewrite IH by exact H. reflexivity.
Qed.

Lemma dict_get_set_same (key : Z) (v : tracked) (d : monitored) :
  dict_get key (dict_set key v d) = Some v.
Proof.
  induction d as [ | [k v'] d IH]; simpl.
  - rewrite Z.eqb_refl. reflexivity.
  - destruct (k =? key)%Z eqn:E; simpl; rewrite E; auto.
Qed.

Lemma dict_get_set_other (key key' : Z) (v : tracked) (d : monitored) :
  key <> key' -> dict_get key' (dict_set key v d) = dict_get key' d.
Proof.
  intros Hne. induction d as [ | [k v'] d IH]; simpl.
  - destruct (Z.eqb_spec key key'); [contradiction | reflexivity].
  - destruct (Z.eqb_spec k key) as [-> | Hk]; simpl.
    + destruct (Z.eqb_spec key key'); [contradiction | reflexivity].
    + destruct (k =? key')%Z; auto.
Qed.

Lemma dict_keys_set_tracked (key : Z) (v entry : tracked) (d : monitored) :
  dict_get key d = Some entry -> dict_keys (dict_set key v d) = dict_keys d.
Proof.
  unfold dict_keys.
  induction d as [ | [k v'] d IH]; simpl; [discriminate | ].
  destruct (k =? key)%Z; simpl; [reflexivity | ].
  intros H. rewrite IH by exact H. reflexivity.
Qed.

Lemma dict_keys_app (d1 d2 : monitored) :
  dict_keys (d1 ++ d2)%list = (dict_keys d1 ++ dict_keys d2)%list.
Proof. apply map_app. Qed.


(* ===================================================================== *)
(** ** Running the loops *)

Lemma for_each_cons {A : Type} (x : A) (xs : list A) (body : A -> M unit)
    (d : monitored) :
  for_each (x :: xs) body d
  = match body x d with
    | (Ok _, d1, log1) =>
        match for_each xs body d1 with
        | (r, d2, log2) => (r, d2, (log1 ++ log2)%list)
        end
    | (Raise e, d1, log1) => (Raise e, d1, log1)
    end.
Proof. reflexivity. Qed.

Lemma for_each_nil {A : Type} (body : A -> M unit) (d : monitored) :
  for_each [] body d = (Ok tt, d, []).
Proof. reflexivity. Qed.

Section NewRuns.

Context (self : GitHubActionsMonitor) (send_notification : option callback).

Lemma process_new_run_known (run : run_data) (d : monitored) :
  dict_contains (id run) d = true ->
  process_new_run self send_notification run d = (Ok tt, d, []).
Proof.
  intros H. unfold process_new_run, bind, contains. rewrite H. reflexivity.
Qed.

Lemma process_new_run_fresh (run : run_data) (d : monitored) :
  dict_contains (id run) d = false ->
  process_new_run self send_notification run d
  = match send_notification with
    | None =>
        (Ok tt, (d ++ [(id run, new_entry)])%list,
         [Tracked (id run) new_entry])
    | Some send =>
        match create_start_message self run with
        | Raise e =>
            (Raise e, (d ++ [(id run, new_entry)])%list,
             [Tracked (id run) new_entry])
        | Ok message =>
            match send message with
            | Raise e =>
                (Raise e, (d ++ [(id run, new_entry)])%list,
                 [Tracked (id run) new_entry;
                  SendFailed StartNotice (id run) message])
            | Ok _ =>
                (Ok tt, (d ++ [(id run, entry_after_start send_notification)])%list,
                 [Tracked (id run) new_entry;
                  Sent StartNotice (id run) message])
            end
        end
    end.
Proof.
  intros H. pose proof H as Hnone. apply dict_contains_false in Hnone.
  unfold process_new_run, bind, contains, setitem, log_event. rewrite H.
  simpl. rewrite (dict_set_fresh _ _ _ Hnone).
  destruct send_notification as [send | ]; [ | reflexivity].
  unfold lift. destruct (create_start_message self run) as [message | e];
    [ | reflexivity].
  unfold call. destruct (send message) as [[] | e]; [ | reflexivity].
  unfold getitem. rewrite dict_get_app, Hnone. simpl. rewrite Z.eqb_refl.
  unfold setitem, entry_after_start. simpl.
  rewrite (dict_set_last _ _ _ _ Hnone). reflexivity.
Qed.

(** A run that the loop body has gone through is in the table, and the body
    removes nothing. *)
Lemma process_new_run_tracks (run : run_data) (d d' : monitored)
    (log : list event) :
  process_new_run self send_notification run d = (Ok tt, d', log) ->
  dict_contains (id run) d' = true
  /\ forall key, dict_contains key d = true -> dict_contains key d' = true.
Proof.
  destruct (dict_contains (id run) d) eqn:Hknown.
  - rewrite (process_new_run_known _ _ Hknown). intros [= <- <-]. auto.
  - rewrite (process_new_run_fresh _ _ Hknown).
    assert (Hgrow : forall entry key,
               dict_contains key d = true ->
               dict_contains key (d ++ [(id run, entry)])%list = true).
    { intros entry key. rewrite !dict_contains_keys, dict_keys_app, in_app_iff.
      auto. }
    assert (Hnew : forall entry,
               dict_contains (id run) (d ++ [(id run, entry)])%list = true).
    { intros entry. rewrite dict_contains_keys, dict_keys_app, in_app_iff.
      right. simpl. auto. }
    destruct send_notification as [send | ].
    + destruct (create_start_message self run) as [message | e];
        [ | discriminate].
      destruct (send message) as [[] | e]; [ | discriminate].
      intros [= <- <-]. auto.
    + intros [= <- <-]. auto.
Qed.

End NewRuns.

(* ===================================================================== *)
(** ** Runs listed more than once *)






Section NewRunsLoop.

Context (self : GitHubActionsMonitor) (send_notification : option callback).

Lemma process_new_runs_cons (run : run_data) (runs : list run_data)
    (d : monitored) :
  process_new_runs self send_notification (run :: runs) d
  = match process_new_run self send_notification run d with
    | (Ok _, d1, log1) =>
        match process_new_runs self send_notification runs d1 with
        | (r, d2, log2) => (r, d2, (log1 ++ log2)%list)
        end
    | (Raise e, d1, log1) => (Raise e, d1, log1)
    end.
Proof. reflexivity. Qed.

(** Runs of an identifier that is already tracked can be struck from the
    list: the loop passes over them. *)
Lemma process_new_runs_skip_known (key : Z) (runs : list run_data) :
  forall d,
    dict_contains key d = true ->
    process_new_runs self send_notification
      (filter (fun r => negb (id r =? key)%Z) runs) d
    = process_new_runs self send_notification runs d.
Proof.
  induction runs as [ | run runs IH]; intros d Hkey; [reflexivity | ].
  simpl filter. destruct (Z.eqb_spec (id run) key) as [E | E]; simpl negb.
  - rewrite (process_new_runs_cons run runs).
    rewrite process_new_run_known by (rewrite E; exact Hkey).
    rewrite IH by exact Hkey.
    destruct (process_new_runs self send_notification runs d) as [[r d2] log2].
    reflexivity.
  - rewrite !process_new_runs_cons.
    destruct (process_new_run self send_notification run d)
      as [[[[] | e] d1] log1] eqn:Hstep; [ | reflexivity].
    apply process_new_run_tracks in Hstep. destruct Hstep as [_ Hkeep].
    rewrite IH by (apply Hkeep; exact Hkey). reflexivity.
Qed.

(** The loop does to a list what it does to the list with every identifier
    kept at its first position only. *)
Lemma process_new_runs_first_seen (runs : list run_data) :
  forall d,
    process_new_runs self send_notification runs d
    = process_new_runs self send_notification (first_seen runs) d.
Proof.
  induction runs as [ | run runs IH]; intros d; [reflexivity | ].
  simpl first_seen. rewrite !process_new_runs_cons.
  destruct (process_new_run self send_notification run d)
    as [[[[] | e] d1] log1] eqn:Hstep; [ | reflexivity].
  apply process_new_run_tracks in Hstep. destruct Hstep as [Hin _].
  rewrite process_new_runs_skip_known by exact Hin.
  rewrite <- IH. reflexivity.
Qed.


(** A pass over identifiers that are all tracked does nothing. *)
Lemma process_new_runs_all_known (runs : list run_data) (d : monitored) :
  (forall run, In run runs -> dict_contains (id run) d = true) ->
  process_new_runs self send_notification runs d = (Ok tt, d, []).
Proof.
  induction runs as [ | run runs IH]; intros Hall; [reflexivity | ].
  rewrite process_new_runs_cons, process_new_run_known, IH;
    [reflexivity | | ]; intros; apply Hall; simpl; auto.
Qed.




End NewRunsLoop.

(* ===================================================================== *)
(** ** New runs: what a pass tracks, and passing twice *)







(* ===================================================================== *)
(** ** The list of active runs *)

Lemma filter_unseen_cons (key : Z) (seen : list Z) (runs : list run_data) :
  filter (fun r => negb (id r =? key)%Z) (filter (unseen seen) runs)
  = filter (unseen (key :: seen)) runs.
Proof.
  induction runs as [ | r runs IH]; [reflexivity | ].
  unfold unseen in *. simpl.
  destruct (existsb (Z.eqb (id r)) seen); simpl.
  - rewrite orb_true_r. simpl. exact IH.
  - rewrite orb_false_r. destruct (id r =? key)%Z; simpl; rewrite IH;
      reflexivity.
Qed.

(** In a concatenation the runs of the first list come first and win over
    runs of the same identifier in the second. *)
Lemma first_seen_app (queued in_progress : list run_data) :
  first_seen (queued ++ in_progress)%list
  = (first_seen queued
     ++ filter (unseen (map id queued)) (first_seen in_progress))%list.
Proof.
  induction queued as [ | run queued IH]; simpl.
  - symmetry. apply forallb_filter_id. apply forallb_forall. reflexivity.
  - rewrite IH, filter_app, filter_unseen_cons. reflexivity.
Qed.

Section ActiveRuns.

Context {DT : Datetime}.

(** C8 (as the code has it): the list of active runs of a cycle is the
    queued listing followed by the in-progress listing, duplicates
    included.  Nothing removes them from the list, but the new-run loop
    passes over an identifier it has already met, so it does to the list
    what it would do to the list with every identifier kept at its first
    position only, where a run of the queued listing wins over an
    in-progress run of the same identifier; the cycle as a whole is the same
    on both lists. *)
Theorem active_runs_are_concatenated
    (self : GitHubActionsMonitor) (branch : pyval)
    (send_notification : option callback) (w : world) (d : monitored) :
  let queued := get_workflow_runs self (http_list w) branch (PStr "queued") in
  let in_progress :=
    get_workflow_runs self (http_list w) branch (PStr "in_progress") in
  active_runs self branch w = (queued ++ in_progress)%list
  /\ first_seen (active_runs self branch w)
     = (first_seen queued
        ++ filter (unseen (map id queued)) (first_seen in_progress))%list
  /\ process_new_runs self send_notification (active_runs self branch w) d
     = process_new_runs self send_notification
         (first_seen (active_runs self branch w)) d
  /\ monitor_cycle self branch send_notification w d
     = (process_new_runs self send_notification
          (first_seen (active_runs self branch w)) ;;
        check_completed_runs self send_notification w ;;
        cleanup_old_runs)%M d.
Proof.
  intros queued in_progress.
  split; [reflexivity | ].
  split; [apply first_seen_app | ].
  split; [apply process_new_runs_first_seen | ].
  unfold monitor_cycle, bind.
  rewrite <- process_new_runs_first_seen. reflexivity.
Qed.

End ActiveRuns.

(** A run listed as queued and as in progress is twice in the list of active
    runs, which therefore is not the list without duplicates. *)
Lemma active_runs_keep_duplicates :
  active_runs Sample.self (PStr "main") Sample.listed_twice
  = [Sample.queued_run 1; Sample.running_run 1]
  /\ first_seen (active_runs Sample.self (PStr "main") Sample.listed_twice)
     = [Sample.queued_run 1]
  /\ active_runs Sample.self (PStr "main") Sample.listed_twice
     <> first_seen (active_runs Sample.self (PStr "main") Sample.listed_twice).
Proof.
  split; [reflexivity | ]. split; [reflexivity | ].
  intros H. apply (f_equal (@List.length run_data)) in H.
  vm_compute in H. discriminate.
Qed.

(* ===================================================================== *)
(** ** Eviction *)

Lemma delete_oldest (oldest rest : monitored) :
  for_each (dict_keys oldest) delitem (oldest ++ rest)%list
  = (Ok tt, rest, []).
Proof.
  induction oldest as [ | [k v] oldest IH]; [reflexivity | ].
  change (dict_keys ((k, v) :: oldest)) with (k :: dict_keys oldest).
  rewrite for_each_cons. unfold delitem at 1. cbn [app dict_del].
  rewrite Z.eqb_refl, IH. reflexivity.
Qed.

Lemma cleanup_old_runs_run (d : monitored) :
  cleanup_old_runs d
  = if (50 <? List.length d)%nat
    then (Ok tt, skipn (List.length d - 30) d, [])
    else (Ok tt, d, []).
Proof.
  unfold cleanup_old_runs, bind, len, keys.
  destruct (50 <? List.length d)%nat; [ | reflexivity].
  unfold drop_last, dict_keys. rewrite length_map, firstn_map.
  pose proof (delete_oldest (firstn (List.length d - 30) d)
                (skipn (List.length d - 30) d)) as H.
  rewrite firstn_skipn in H. unfold dict_keys in H. rewrite H. reflexivity.
Qed.

Lemma NoDup_app_disjoint {A : Type} (l1 l2 : list A) (a : A) :
  NoDup (l1 ++ l2)%list -> In a l1 -> ~ In a l2.
Proof.
  induction l1 as [ | x l1 IH]; simpl; [tauto | ].
  intros H. inversion H as [ | ? ? Hnotin Hnodup]; subst.
  intros [-> | Hin] Hin2.
  - apply Hnotin, in_or_app. auto.
  - exact (IH Hnodup Hin Hin2).
Qed.

Lemma insert_in_order (ids : list Z) :
  forall d,
    NoDup ids ->
    (forall key, In key ids -> dict_get key d = None) ->
    for_each ids (fun key => setitem key new_entry) d
    = (Ok tt, (d ++ map (fun key => (key, new_entry)) ids)%list, []).
Proof.
  induction ids as [ | key ids IH]; intros d Hnodup Hfresh.
  - simpl. rewrite app_nil_r. reflexivity.
  - inversion Hnodup as [ | ? ? Hnotin Hnodup']; subst.
    rewrite for_each_cons. unfold setitem at 1.
    rewrite dict_set_fresh by (apply Hfresh; simpl; auto).
    rewrite IH; [ | exact Hnodup' | ].
    + rewrite <- app_assoc. reflexivity.
    + intros k Hk. rewrite dict_get_app, Hfresh by (simpl; auto).
      simpl. destruct (Z.eqb_spec key k) as [-> | _];
        [contradiction | reflexivity].
Qed.

(** C4: whenever the table holds more than 50 entries, eviction returns and
    leaves exactly its last 30 entries, in their order and whatever their
    flags; a table of at most 50 entries is left alone.  In particular,
    after 51 pairwise distinct identifiers have been entered in order into
    an empty table, eviction leaves the last 30 of them: each of the first
    21 is absent and each of the last 30 is present. *)
Theorem eviction_keeps_the_last_30 :
  (forall d : monitored,
      (50 < List.length d)%nat ->
      cleanup_old_runs d = (Ok tt, skipn (List.length d - 30) d, [])
      /\ List.length (skipn (List.length d - 30) d) = 30%nat)
  /\ (forall d : monitored,
        (List.length d <= 50)%nat -> cleanup_old_runs d = (Ok tt, d, []))
  /\ (forall ids : list Z,
        NoDup ids ->
        List.length ids = 51%nat ->
        exists d d',
          for_each ids (fun key => setitem key new_entry) [] = (Ok tt, d, [])
          /\ cleanup_old_runs d = (Ok tt, d', [])
          /\ dict_keys d' = skipn 21 ids
          /\ List.length d' = 30%nat
          /\ (forall key, In key (firstn 21 ids) ->
                dict_contains key d' = false)
          /\ (forall key, In key (skipn 21 ids) ->
                dict_contains key d' = true)).
Proof.
  split; [ | split].
  - intros d Hlen. rewrite cleanup_old_runs_run.
    apply Nat.ltb_lt in Hlen. rewrite Hlen. split; [reflexivity | ].
    apply Nat.ltb_lt in Hlen. rewrite length_skipn. lia.
  - intros d Hlen. rewrite cleanup_old_runs_run.
    destruct (Nat.ltb_spec 50 (List.length d)); [lia | reflexivity].
  - intros ids Hnodup Hlen.
    exists (map (fun key => (key, new_entry)) ids).
    exists (skipn 21 (map (fun key => (key, new_entry)) ids)).
    assert (Hkeys : dict_keys
                      (skipn 21 (map (fun key => (key, new_entry)) ids))
                    = skipn 21 ids).
    { unfold dict_keys. rewrite skipn_map, map_map. apply map_id. }
    split; [ | split; [ | split; [ | split; [ | split]]]].
    + rewrite insert_in_order; [reflexivity | exact Hnodup | reflexivity].
    + rewrite cleanup_old_runs_run, length_map, Hlen. reflexivity.
    + exact Hkeys.
    + rewrite length_skipn, length_map, Hlen. reflexivity.
    + intros key Hin.
      destruct (dict_contains key
                  (skipn 21 (map (fun key => (key, new_entry)) ids))) eqn:E;
        [ | reflexivity].
      apply dict_contains_keys in E. rewrite Hkeys in E.
      rewrite <- (firstn_skipn 21 ids) in Hnodup.
      elim (NoDup_app_disjoint _ _ _ Hnodup Hin E).
    + intros key Hin. apply dict_contains_keys. rewrite Hkeys. exact Hin.
Qed.

(** A table of 51 entries keyed 1 to 51: the keys 22 to 51 stay. *)
Lemma eviction_keeps_the_last_30_witness :
  cleanup_old_runs (Sample.table 51)
  = (Ok tt, skipn 21 (Sample.table 51), [])
  /\ exists d d',
       for_each (Sample.ids 1 51) (fun key => setitem key new_entry) []
       = (Ok tt, d, [])
       /\ cleanup_old_runs d = (Ok tt, d', [])
       /\ dict_keys d' = Sample.ids 22 30
       /\ dict_contains 21 d' = false
       /\ dict_contains 22 d' = true.
Proof.
  split.
  - apply (proj1 eviction_keeps_the_last_30 (Sample.table 51)).
    vm_compute. reflexivity.
  - destruct (proj2 (proj2 eviction_keeps_the_last_30) (Sample.ids 1 51))
      as [d [d' [H1 [H2 [H3 [_ [H5 H6]]]]]]].
    + unfold Sample.ids. apply Injective_map_NoDup.
      * intros x y H. lia.
      * apply seq_NoDup.
    + reflexivity.
    + exists d, d'. split; [exact H1 | ]. split; [exact H2 | ].
      split; [exact H3 | ]. split.
      * apply H5. vm_compute. tauto.
      * apply H6. vm_compute. tauto.
Defined.

(* ===================================================================== *)
(** ** The completed-run check *)

Section CompletedRuns.

Context {DT : Datetime}.
Context (self : GitHubActionsMonitor) (send_notification : option callback)
  (w : world).

Lemma check_completed_run_untracked (run_id : Z) (d : monitored) :
  dict_get run_id d = None ->
  check_completed_run self send_notification w run_id d
  = (Raise KeyError, d, []).
Proof.
  intros H. unfold check_completed_run, bind, getitem. rewrite H. reflexivity.
Qed.

Lemma check_completed_run_tracked (run_id : Z) (entry : tracked)
    (d : monitored) :
  dict_get run_id d = Some entry ->
  check_completed_run self send_notification w run_id d
  = if notified_end entry then (Ok tt, d, [])
    else
      match get_run_details self (http_run w) run_id with
      | None => (Ok tt, d, [Fetched run_id])
      | Some run_details =>
          if py_eq_str (status run_details) "completed" then
            match send_notification with
            | None => (Ok tt, d, [Fetched run_id])
            | Some send =>
                match create_completion_message self (now w) run_details with
                | Raise e => (Raise e, d, [Fetched run_id])
                | Ok message =>
                    match send message with
                    | Raise e =>
                        (Raise e, d,
                         [Fetched run_id;
                          SendFailed EndNotice run_id message])
                    | Ok _ =>
                        (Ok tt,
                         dict_set run_id
                           {| notified_start := notified_start entry;
                              notified_end := true |} d,
                         [Fetched run_id; Sent EndNotice run_id message])
                    end
                end
            end
          else (Ok tt, d, [Fetched run_id])
      end.
Proof.
  intros H. unfold check_completed_run, bind, getitem. rewrite H.
  destruct (notified_end entry); [reflexivity | ].
  unfold log_event.
  destruct (get_run_details self (http_run w) run_id) as [run_details | ];
    [ | reflexivity].
  destruct (py_eq_str (status run_details) "completed"); [ | reflexivity].
  destruct send_notification as [send | ]; [ | reflexivity].
  unfold lift.
  destruct (create_completion_message self (now w) run_details)
    as [message | e]; [ | reflexivity].
  unfold call. destruct (send message) as [[] | e]; [ | reflexivity].
  rewrite H. reflexivity.
Qed.

(** What one turn of the check can do: leave the table alone and send
    nothing, or send the completion message of its run and set the run's
    completion flag. *)
Lemma check_completed_run_cases (run_id : Z) (d d1 : monitored)
    (r : res unit) (log1 : list event) :
  check_completed_run self send_notification w run_id d = (r, d1, log1) ->
  (d1 = d
   /\ forall e, In e log1 ->
        e = Fetched run_id
        \/ exists message, e = SendFailed EndNotice run_id message)
  \/ (exists entry run_details send message,
         dict_get run_id d = Some entry
         /\ notified_end entry = false
         /\ get_run_details self (http_run w) run_id = Some run_details
         /\ py_eq_str (status run_details) "completed" = true
         /\ send_notification = Some send
         /\ create_completion_message self (now w) run_details = Ok message
         /\ r = Ok tt
         /\ d1 = dict_set run_id
                   {| notified_start := notified_start entry;
                      notified_end := true |} d
         /\ log1 = [Fetched run_id; Sent EndNotice run_id message]).
Proof.
  destruct (dict_get run_id d) as [entry | ] eqn:Hget.
  - rewrite (check_completed_run_tracked _ _ _ Hget).
    destruct (notified_end entry) eqn:Hend.
    { intros [= <- <- <-]. left. split; [reflexivity | intros e []]. }
    destruct (get_run_details self (http_run w) run_id) as [run_details | ].
    2: only_fetched.
    destruct (py_eq_str (status run_details) "completed") eqn:Hstatus.
    2: only_fetched.
    destruct send_notification as [send | ].
    2: only_fetched.
    destruct (create_completion_message self (now w) run_details)
      as [message | e0] eqn:Hmsg.
    2: only_fetched.
    destruct (send message) as [[] | e0].
    + intros [= <- <- <-]. right.
      exists entry, run_details, send, message. repeat split; auto.
    + intros [= <- <- <-]. left. split; [reflexivity | ].
      intros e [<- | [<- | []]]; eauto.
  - rewrite (check_completed_run_untracked _ _ Hget).
    intros [= <- <- <-]. left. split; [reflexivity | intros e []].
Qed.

(** A turn of the check for another run leaves the entry of [run_id] as it
    is and sends nothing about it. *)
Lemma check_completed_run_other (key run_id : Z) (d d1 : monitored)
    (r : res unit) (log1 : list event) :
  key <> run_id ->
  check_completed_run self send_notification w key d = (r, d1, log1) ->
  dict_get run_id d1 = dict_get run_id d
  /\ forall e, In e log1 ->
       is_notice_of run_id e = false /\ is_fetch_of run_id e = false.
Proof.
  intros Hne Hstep.
  assert (Hk : (key =? run_id)%Z = false) by (apply Z.eqb_neq; exact Hne).
  apply check_completed_run_cases in Hstep.
  destruct Hstep as [[-> Hlog] | Hsent].
  - split; [reflexivity | ].
    intros e He. destruct (Hlog e He) as [-> | [message ->]]; simpl; auto.
  - destruct Hsent as (entry & run_details & send & message & _ & _ & _ & _
                       & _ & _ & _ & -> & ->).
    split; [apply dict_get_set_other; exact Hne | ].
    intros e [<- | [<- | []]]; simpl; auto.
Qed.




End CompletedRuns.

Section CompletedRunsWithCallback.

Context {DT : Datetime}.
Context (self : GitHubActionsMonitor) (w : world).

Lemma check_completed_runs_run (send_notification : option callback)
    (d : monitored) :
  check_completed_runs self send_notification w d
  = for_each (dict_keys d) (check_completed_run self send_notification w) d.
Proof.
  unfold check_completed_runs, bind, keys.
  destruct (for_each (dict_keys d)
              (check_completed_run self send_notification w) d)
    as [[r d2] log2].
  reflexivity.
Qed.

Context (send : callback) (send_returns : forall message, send message = Ok tt).




End CompletedRunsWithCallback.




(* ===================================================================== *)
(** ** Completion notifications over the whole loop *)

Lemma filter_none {A : Type} (p : A -> bool) (l : list A) :
  (forall a, In a l -> p a = false) -> filter p l = [].
Proof.
  induction l as [ | a l IH]; intros H; [reflexivity | ].
  simpl. rewrite (H a) by (simpl; auto). apply IH.
  intros x Hx. apply H. simpl. auto.
Qed.


Lemma times_tracked_app (run_id : Z) (log1 log2 : list event) :
  times_tracked run_id (log1 ++ log2)%list
  = (times_tracked run_id log1 + times_tracked run_id log2)%nat.
Proof.
  unfold times_tracked. rewrite filter_app, length_app. reflexivity.
Qed.

Lemma pending_le_1 (run_id : Z) (d : monitored) : (pending run_id d <= 1)%nat.
Proof.
  unfold pending. destruct (dict_get run_id d) as [entry | ]; [ | lia].
  destruct (notified_end entry); lia.
Qed.

Section Account.

Context (run_id : Z).





Lemma NoDup_keys_append (key : Z) (entry : tracked) (d : monitored) :
  NoDup (dict_keys d) ->
  dict_get key d = None ->
  NoDup (dict_keys (d ++ [(key, entry)])%list).
Proof.
  intros Hnodup Hnone. rewrite dict_keys_app. apply NoDup_app.
  - exact Hnodup.
  - simpl. constructor; [intros [] | constructor].
  - intros a Ha [<- | []]. apply dict_get_none_keys in Hnone. contradiction.
Qed.



End Account.

Section AccountOfTheCycle.

Context {DT : Datetime}.
Context (run_id : Z) (self : GitHubActionsMonitor)
  (send_notification : option callback).


Lemma dict_get_skipn (n : nat) (d : monitored) (entry : tracked) :
  NoDup (dict_keys d) ->
  dict_get run_id (skipn n d) = Some entry ->
  dict_get run_id d = Some entry.
Proof.
  intros Hnodup Hget.
  rewrite <- (firstn_skipn n d) in Hnodup |- *.
  rewrite dict_get_app.
  destruct (dict_get run_id (firstn n d)) as [e | ] eqn:Hfirst;
    [ | exact Hget].
  rewrite dict_keys_app in Hnodup.
  elim (NoDup_app_disjoint _ _ run_id Hnodup).
  - apply dict_contains_keys, dict_contains_get. eauto.
  - apply dict_contains_keys, dict_contains_get. eauto.
Qed.




End AccountOfTheCycle.




(* ===================================================================== *)
(** ** The loop without a callback *)

Lemma dict_get_In (key : Z) (entry : tracked) (d : monitored) :
  dict_get key d = Some entry -> In (key, entry) d.
Proof.
  induction d as [ | [k v] d IH]; simpl; [discriminate | ].
  destruct (Z.eqb_spec k key) as [-> | _].
  - intros [= ->]. auto.
  - auto.
Qed.

Lemma all_unnotified_append (key : Z) (d : monitored) :
  all_unnotified d -> all_unnotified (d ++ [(key, new_entry)])%list.
Proof.
  intros H k entry Hin. apply in_app_or in Hin.
  destruct Hin as [Hin | [[= _ <-] | []]]; [eauto | reflexivity].
Qed.

Lemma all_unnotified_skipn (n : nat) (d : monitored) :
  all_unnotified d -> all_unnotified (skipn n d).
Proof.
  intros H k entry Hin. apply (H k).
  rewrite <- (firstn_skipn n d). apply in_or_app. auto.
Qed.

Section NoCallback.

Context {DT : Datetime}.
Context (self : GitHubActionsMonitor).

Lemma new_runs_without_callback (runs : list run_data) :
  forall d,
    all_unnotified d ->
    exists d' log,
      process_new_runs self None runs d = (Ok tt, d', log)
      /\ all_unnotified d'
      /\ filter is_notice log = []
      /\ (forall key, dict_contains key d = true ->
            dict_contains key d' = true)
      /\ (forall run, In run runs -> dict_contains (id run) d' = true)
      /\ (forall run, In run runs -> dict_contains (id run) d = false ->
            In (Tracked (id run) new_entry) log).
Proof.
  induction runs as [ | run runs IH]; intros d Hall.
  - exists d, []. repeat split; auto; intros run [].
  - rewrite process_new_runs_cons.
    destruct (dict_contains (id run) d) eqn:Hknown.
    + rewrite (process_new_run_known _ _ _ _ Hknown).
      destruct (IH d Hall) as (d' & log & -> & Hall' & Hq & Hkeep & Hin & Hnew).
      exists d', log. repeat split; auto.
      * intros x [<- | Hx]; auto.
      * intros x [<- | Hx] Hfresh; [congruence | auto].
    + rewrite (process_new_run_fresh _ _ _ _ Hknown).
      destruct (IH (d ++ [(id run, new_entry)])%list
                  (all_unnotified_append _ _ Hall))
        as (d' & log & -> & Hall' & Hq & Hkeep & Hin & Hnew).
      assert (Hgrow : forall key,
                 dict_contains key d = true ->
                 dict_contains key (d ++ [(id run, new_entry)])%list = true).
      { intros key. rewrite !dict_contains_keys, dict_keys_app, in_app_iff.
        auto. }
      assert (Hrun : dict_contains (id run) (d ++ [(id run, new_entry)])%list
                     = true).
      { rewrite dict_contains_keys, dict_keys_app, in_app_iff.
        right. simpl. auto. }
      eexists. eexists. split; [reflexivity | ].
      split; [exact Hall' | ]. split; [exact Hq | ].
      split; [auto | ]. split.
      * intros x [<- | Hx]; auto.
      * intros x [<- | Hx] Hfresh; [simpl; auto | ].
        destruct (dict_contains (id x) (d ++ [(id run, new_entry)])%list)
          eqn:Hx1; [ | simpl; auto].
        apply dict_contains_keys in Hx1.
        rewrite dict_keys_app, in_app_iff in Hx1.
        destruct Hx1 as [Hx1 | [Hx1 | []]].
        -- apply dict_contains_keys in Hx1. congruence.
        -- rewrite <- Hx1. simpl. auto.
Qed.

Lemma check_without_callback (w : world) (run_ids : list Z) (d : monitored) :
  all_unnotified d ->
  (forall key, In key run_ids -> In key (dict_keys d)) ->
  for_each run_ids (check_completed_run self None w) d
  = (Ok tt, d, map Fetched run_ids).
Proof.
  intros Hall. induction run_ids as [ | key run_ids IH]; intros Hkeys;
    [reflexivity | ].
  rewrite for_each_cons.
  assert (Hin : In key (dict_keys d)) by (apply Hkeys; simpl; auto).
  apply dict_contains_keys, dict_contains_get in Hin.
  destruct Hin as [entry Hget].
  rewrite (check_completed_run_tracked _ _ _ _ _ _ Hget).
  rewrite (Hall _ _ (dict_get_In _ _ _ Hget)). simpl.
  assert (Hstep : match get_run_details self (http_run w) key with
                  | Some run_details =>
                      if py_eq_str (status run_details) "completed"
                      then (Ok tt, d, [Fetched key])
                      else (Ok tt, d, [Fetched key])
                  | None => (Ok tt, d, [Fetched key])
                  end = (@Ok unit tt, d, [Fetched key])).
  { destruct (get_run_details self (http_run w) key) as [run_details | ];
      [ | reflexivity].
    destruct (py_eq_str (status run_details) "completed"); reflexivity. }
  rewrite Hstep, IH by (intros k Hk; apply Hkeys; simpl; auto).
  reflexivity.
Qed.

Lemma cycle_without_callback (branch : pyval) (w : world) (d : monitored) :
  all_unnotified d ->
  exists d' log,
    monitor_cycle self branch None w d = (Ok tt, d', log)
    /\ filter is_notice log = []
    /\ all_unnotified d'
    /\ (forall run, In run (active_runs self branch w) ->
          dict_contains (id run) d = false ->
          In (Tracked (id run) new_entry) log)
    /\ (forall run, In run (active_runs self branch w) ->
          In (Fetched (id run)) log)
    /\ (forall key, dict_contains key d = true -> In (Fetched key) log).
Proof.
  intros Hall.
  destruct (new_runs_without_callback (active_runs self branch w) d Hall)
    as (d1 & log1 & Hnew & Hall1 & Hq1 & Hkeep & Hin & Htracked).
  unfold monitor_cycle, bind. rewrite Hnew.
  rewrite check_completed_runs_run, check_without_callback by auto.
  rewrite cleanup_old_runs_run.
  assert (Hfetch : forall key, dict_contains key d1 = true ->
                     In (Fetched key)
                       (log1 ++ map Fetched (dict_keys d1) ++ [])%list).
  { intros key Hkey. apply in_or_app. right. apply in_or_app. left.
    apply in_map, dict_contains_keys, Hkey. }
  assert (Hquiet : filter is_notice
                     (log1 ++ map Fetched (dict_keys d1) ++ [])%list = []).
  { rewrite !filter_app, Hq1. simpl. rewrite app_nil_r.
    apply filter_none. intros e He. apply in_map_iff in He.
    destruct He as [key [<- _]]. reflexivity. }
  assert (Htrack : forall run, In run (active_runs self branch w) ->
                     dict_contains (id run) d = false ->
                     In (Tracked (id run) new_entry)
                       (log1 ++ map Fetched (dict_keys d1) ++ [])%list).
  { intros run Hrun Hfresh. apply in_or_app. left. auto. }
  destruct (50 <? List.length d1)%nat; eexists; eexists;
    (split; [reflexivity | ]); repeat split; auto.
  apply all_unnotified_skipn, Hall1.
Qed.

Lemma loop_without_callback (branch : pyval) (worlds : list world) :
  forall d,
    all_unnotified d ->
    all_unnotified (fst (monitor_loop self branch None worlds d))
    /\ filter is_notice (snd (monitor_loop self branch None worlds d)) = [].
Proof.
  induction worlds as [ | w worlds IH]; intros d Hall; simpl; [auto | ].
  destruct (cycle_without_callback branch w d Hall)
    as (d1 & log1 & -> & Hq & Hall1 & _).
  destruct (IH d1 Hall1) as [Hall2 Hq2].
  destruct (monitor_loop self branch None worlds d1) as [d2 log2].
  simpl in *. split; [exact Hall2 | ].
  rewrite filter_app, Hq, Hq2. reflexivity.
Qed.

(** C10 (as the code has it): a monitor run without a callback, started on
    an empty table, never calls a callback and never sets a flag: after any
    number of cycles the log holds no notice and every tracked entry has
    both flags unset.  Each further cycle returns, enters every newly listed
    run with both flags unset, and requests the details of every run it
    tracks, old or new, whatever their status: a completed run is fetched
    again in every cycle for as long as it is in the table, that is until
    eviction removes it. *)
Theorem without_callback_nothing_is_notified
    (branch : pyval) (worlds : list world) (w : world) :
  let d := fst (monitor_loop self branch None worlds []) in
  let log := snd (monitor_loop self branch None worlds []) in
  filter is_notice log = []
  /\ all_unnotified d
  /\ new_entry = {| notified_start := false; notified_end := false |}
  /\ exists d' log',
       monitor_cycle self branch None w d = (Ok tt, d', log')
       /\ filter is_notice log' = []
       /\ all_unnotified d'
       /\ (forall run, In run (active_runs self branch w) ->
             dict_contains (id run) d = false ->
             In (Tracked (id run) new_entry) log')
       /\ (forall run, In run (active_runs self branch w) ->
             In (Fetched (id run)) log')
       /\ (forall key, dict_contains key d = true -> In (Fetched key) log').
Proof.
  intros d log.
  assert (Hempty : all_unnotified []) by (intros k entry []).
  destruct (loop_without_callback branch worlds [] Hempty) as [Hall Hq].
  split; [exact Hq | ]. split; [exact Hall | ]. split; [reflexivity | ].
  apply cycle_without_callback, Hall.
Qed.

End NoCallback.

(** Without a callback run 1 is tracked in the first cycle, fetched and
    never flagged; the third cycle brings the table to 51 entries and evicts
    it.  In the next cycle its details, which say "completed", are not
    requested, while those of run 30, still tracked, are. *)
Lemma evicted_run_is_not_fetched_again :
  let worlds := Sample.fifty_one_runs in
  let d := fst (monitor Sample.self (PStr "main") None worlds) in
  let log := snd (monitor Sample.self (PStr "main") None worlds) in
  let next := snd (monitor_cycle Sample.self (PStr "main") None
                     (Sample.cycle [] [] (Sample.ids 1 51)) d) in
  existsb (is_tracked_of 1) log = true
  /\ existsb (is_fetch_of 1) log = true
  /\ dict_contains 1 d = false
  /\ existsb (is_fetch_of 1) next = false
  /\ existsb (is_fetch_of 30) next = true.
Proof. vm_compute. repeat split; reflexivity. Qed.

Lemma without_callback_nothing_is_notified_witness :
  exists d' log',
    monitor_cycle Sample.self (PStr "main") None (Sample.cycle [] [] [1%Z])
      (fst (monitor_loop Sample.self (PStr "main") None
              [Sample.cycle [1%Z] [] []] []))
    = (Ok tt, d', log')
    /\ In (Fetched 1) log'.
Proof.
  destruct (without_callback_nothing_is_notified Sample.self (PStr "main")
              [Sample.cycle [1%Z] [] []] (Sample.cycle [] [] [1%Z]))
    as (_ & _ & _ & d' & log' & Hcycle & _ & _ & _ & _ & Hfetch).
  exists d', log'. split; [exact Hcycle | ].
  apply Hfetch. reflexivity.
Defined.

(* ===================================================================== *)
(** * Further properties *)

(* ===================================================================== *)
(** ** Requests *)

Lemma string_app_assoc (a b c : string) : (a ++ b) ++ c = a ++ (b ++ c).
Proof.
  induction a as [ | x a IH]; simpl; [reflexivity | ].
  rewrite IH. reflexivity.
Qed.





(* ===================================================================== *)
(** ** The start message *)

Lemma py_len_app (a b : string) : py_len (a ++ b) = (py_len a + py_len b)%nat.
Proof.
  induction a as [ | c a IH]; simpl; [reflexivity | ].
  rewrite IH. lia.
Qed.

Lemma py_len_prefix (n : nat) (s : string) :
  py_len (py_prefix n s) = Nat.min n (py_len s).
Proof.
  revert n. induction s as [ | c s IH]; intros n; simpl.
  - rewrite Nat.min_0_r. reflexivity.
  - destruct (is_continuation c) eqn:E; simpl.
    + rewrite E. apply IH.
    + destruct n as [ | n]; simpl; [reflexivity | ].
      rewrite E, IH. reflexivity.
Qed.

Lemma py_prefix_app (n : nat) (s : string) :
  exists rest, s = py_prefix n s ++ rest.
Proof.
  revert n. induction s as [ | c s IH]; intros n; simpl.
  - exists "". reflexivity.
  - destruct (is_continuation c).
    + destruct (IH n) as [rest H]. exists rest. simpl. congruence.
    + destruct n as [ | n].
      * exists (String c s). reflexivity.
      * destruct (IH n) as [rest H]. exists rest. simpl. congruence.
Qed.

(** X3: the commit message shown in a start message is the message itself
    when it has at most 80 characters, and otherwise its first 80
    characters followed by three dots; it never has more than 83
    characters.  Characters are counted, not bytes. *)
Theorem commit_message_is_truncated
    (self : GitHubActionsMonitor) (run : run_data) (commit : string) :
  head_commit run = Some (NestedDict (Some (PStr commit))) ->
  actor run <> Some NestedNull ->
  exists shown before after,
    create_start_message self run
    = Ok (before ++ "**Commit:** " ++ shown ++ after)
    /\ (py_len shown <= 83)%nat
    /\ ((py_len commit <= 80)%nat -> shown = commit)
    /\ ((80 < py_len commit)%nat ->
        shown = py_prefix 80 commit ++ "..."
        /\ py_len (py_prefix 80 commit) = 80%nat
        /\ exists rest, commit = py_prefix 80 commit ++ rest).
Proof.
  intros Hcommit Hactor. unfold create_start_message.
  assert (Hget : exists who, get_nested (actor run) (PStr "Usuario") = Ok who).
  { destruct (actor run) as [[ | login] | ]; cbn [get_nested]; eauto.
    elim Hactor. reflexivity. }
  destruct Hget as [who ->]. rewrite Hcommit.
  cbn [res_bind get_nested get truncate_commit].
  set (before :=
         "🚀 **GitHub Action Iniciado**" ++ nl ++ nl
         ++ "**Repo:** " ++ py_str (repo_owner self) ++ "/"
         ++ py_str (repo_name self) ++ nl
         ++ "**Workflow:** " ++ py_str (get (name run) (PStr "Workflow"))
         ++ " (#" ++ py_str (get (run_number run) (PStr "N/A")) ++ ")" ++ nl
         ++ "**Rama:** "
         ++ py_str (get (head_branch run) (PStr "rama desconocida")) ++ nl
         ++ "**Por:** " ++ py_str who ++ nl).
  set (after :=
         nl ++ nl ++ "[Ver en GitHub]("
         ++ py_str (get (html_url run) (PStr "#")) ++ ")").
  destruct (Nat.ltb_spec 80 (py_len commit)) as [Hlong | Hshort];
    cbn [res_bind py_str].
  - exists (py_prefix 80 commit ++ "..."), before, after.
    split.
    { subst before after. rewrite !string_app_assoc. reflexivity. }
    split.
    { rewrite py_len_app, py_len_prefix.
      change (py_len "...") with 3%nat. lia. }
    split; [lia | ].
    intros _. split; [reflexivity | ]. split.
    + rewrite py_len_prefix. lia.
    + apply py_prefix_app.
  - exists commit, before, after.
    split.
    { subst before after. rewrite !string_app_assoc. reflexivity. }
    split; [lia | ]. split; [reflexivity | lia].
Qed.

Example long_commit_message_length :
  py_len long_commit_message = 100%nat
  /\ String.length long_commit_message = 105%nat.
Proof. split; reflexivity. Qed.

Lemma commit_message_is_truncated_witness :
  exists before after,
    create_start_message Sample.self
      {| id := 1; status := PStr "queued"; name := None; head_branch := None;
         actor := None; run_number := None;
         head_commit := Some (NestedDict (Some (PStr long_commit_message)));
         conclusion := None; created_at := None; updated_at := None;
         html_url := None |}
    = Ok (before ++ "**Commit:** "
          ++ "Añade la comprobación de los límites de la tabla y corrige la expulsión de las e..."
          ++ after).
Proof.
  destruct (commit_message_is_truncated Sample.self
              {| id := 1; status := PStr "queued"; name := None;
                 head_branch := None; actor := None; run_number := None;
                 head_commit :=
                   Some (NestedDict (Some (PStr long_commit_message)));
                 conclusion := None; created_at := None; updated_at := None;
                 html_url := None |} long_commit_message eq_refl)
    as (shown & before & after & Hmsg & _ & _ & Hlong).
  - discriminate.
  - destruct Hlong as [-> _]; [vm_compute; lia | ].
    exists before, after. exact Hmsg.
Defined.

(** X4: composing a start message fails with [AttributeError] when the
    run's [actor] is null and when its [head_commit] is null, and with
    [TypeError] when the commit message is [None], a boolean or a number.
    It succeeds when [actor] and [head_commit] are each missing or an
    object and the commit message is missing or a string. *)
Theorem start_message_failures
    (self : GitHubActionsMonitor) (run : run_data) :
  (actor run = Some NestedNull ->
   create_start_message self run = Raise AttributeError)
  /\ (head_commit run = Some NestedNull ->
      create_start_message self run = Raise AttributeError)
  /\ (forall v,
        (actor run = None \/ exists login, actor run = Some (NestedDict login))
        ->
        head_commit run = Some (NestedDict (Some v)) ->
        (v = PNone \/ (exists b, v = PBool b) \/ (exists z, v = PInt z)) ->
        create_start_message self run = Raise TypeError)
  /\ ((actor run = None \/ exists login, actor run = Some (NestedDict login))
      ->
      (head_commit run = None
       \/ head_commit run = Some (NestedDict None)
       \/ exists s, head_commit run = Some (NestedDict (Some (PStr s)))) ->
      exists message, create_start_message self run = Ok message).
Proof.
  unfold create_start_message.
  split; [ | split; [ | split]].
  - intros ->. reflexivity.
  - intros ->. destruct (actor run) as [[ | login] | ]; reflexivity.
  - intros v Hactor -> Hv.
    assert (Hwho : exists who,
               get_nested (actor run) (PStr "Usuario") = Ok who).
    { destruct Hactor as [-> | [login ->]]; cbn [get_nested]; eauto. }
    destruct Hwho as [who ->].
    destruct Hv as [-> | [[b ->] | [z ->]]]; reflexivity.
  - intros Hactor Hcommit.
    assert (Hwho : exists who,
               get_nested (actor run) (PStr "Usuario") = Ok who).
    { destruct Hactor as [-> | [login ->]]; cbn [get_nested]; eauto. }
    destruct Hwho as [who ->].
    assert (Hshown : exists shown,
               res_bind (get_nested (head_commit run) (PStr ""))
                 truncate_commit = Ok shown).
    { destruct Hcommit as [-> | [-> | [s ->]]];
        cbn [get_nested get res_bind truncate_commit];
        try (destruct (80 <? py_len s)%nat); try (destruct (80 <? py_len "")%nat);
        eauto. }
    destruct Hshown as [shown Hshown].
    cbn [res_bind].
    destruct (get_nested (head_commit run) (PStr "")) as [c | e0];
      cbn [res_bind] in *; [ | discriminate].
    rewrite Hshown. cbn [res_bind]. eauto.
Qed.

(* ===================================================================== *)
(** ** Durations *)

Section Durations.

Context {DT : Datetime}.


(** X6: a run whose creation timestamp is missing or unreadable still gets
    its completion message, with the sentinel in place of the duration. *)
Theorem completion_message_without_duration
    (self : GitHubActionsMonitor) (now : datetime) (run : run_data) :
  (created_at run = None ->
   parse_timestamp (get_none (created_at run)) = Raise AttributeError)
  /\ forall e,
       parse_timestamp (get_none (created_at run)) = Raise e ->
       exists before after,
         create_completion_message self now run
         = Ok (before ++ "**Duración:** Desconocida" ++ after).
Proof.
  split.
  { intros ->. reflexivity. }
  intros e Hparse. unfold create_completion_message.
  destruct (status_map_get (get (conclusion run) (PStr "unknown"))
              ("⚠️", "COMPLETADO")) as [emoji status_text].
  unfold format_duration.
  rewrite (format_duration_body_start_fails _ _ _ _ Hparse).
  cbn [try_except res_bind].
  exists (completion_header emoji status_text ++ nl ++ nl
          ++ "**Repo:** " ++ py_str (repo_owner self) ++ "/"
          ++ py_str (repo_name self) ++ nl
          ++ "**Workflow:** " ++ py_str (get (name run) (PStr "Workflow"))
          ++ " (#" ++ py_str (get (run_number run) (PStr "N/A")) ++ ")" ++ nl
          ++ "**Rama:** "
          ++ py_str (get (head_branch run) (PStr "rama desconocida")) ++ nl).
  exists (nl ++ nl ++ "[Ver en GitHub]("
          ++ py_str (get (html_url run) (PStr "#")) ++ ")").
  rewrite !string_app_assoc.
  change ("**Duración:** Desconocida")
    with ("**Duración:** " ++ "Desconocida").
  rewrite !string_app_assoc. reflexivity.
Qed.

End Durations.


Lemma completion_message_without_duration_witness :
  exists before after,
    create_completion_message (DT := IsoSeconds.lib) Sample.self 0%Z
      {| id := 1; status := PStr "completed"; name := None;
         head_branch := None; actor := None; run_number := None;
         head_commit := None; conclusion := None; created_at := None;
         updated_at := None; html_url := None |}
    = Ok (before ++ "**Duración:** Desconocida" ++ after).
Proof.
  apply (proj2 (completion_message_without_duration (DT := IsoSeconds.lib)
                  Sample.self 0%Z
                  {| id := 1; status := PStr "completed"; name := None;
                     head_branch := None; actor := None; run_number := None;
                     head_commit := None; conclusion := None;
                     created_at := None; updated_at := None;
                     html_url := None |}) AttributeError).
  reflexivity.
Defined.

(* ===================================================================== *)
(** ** Start notifications and the life of an entry *)

Lemma starts_sent_app (run_id : Z) (log1 log2 : list event) :
  starts_sent run_id (log1 ++ log2)%list
  = (starts_sent run_id log1 + starts_sent run_id log2)%nat.
Proof.
  unfold starts_sent. rewrite filter_app, length_app. reflexivity.
Qed.

Lemma ages_refl (entry : option tracked) : ages entry entry.
Proof.
  destruct entry as [e | ]; [right | left; reflexivity].
  exists e, e. auto.
Qed.

Lemma ages_trans (a b c : option tracked) : ages a b -> ages b c -> ages a c.
Proof.
  intros Hab [-> | (e1 & e2 & Hb & -> & Hstart & Hend)]; [left; reflexivity | ].
  destruct Hab as [-> | (e0 & e1' & -> & Hb' & Hstart' & Hend')];
    [discriminate | ].
  rewrite Hb in Hb'. injection Hb' as <-.
  right. exists e0, e2. repeat split; [congruence | auto].
Qed.

Section Lifetime.

Context (run_id : Z).

Lemma starts_accounted_bind {A B : Type} (c : M A) (k : A -> M B) :
  starts_accounted run_id c ->
  (forall a, starts_accounted run_id (k a)) ->
  starts_accounted run_id (bind c k).
Proof.
  intros Hc Hk d r d' log. unfold bind.
  destruct (c d) as [[[a | e] d1] log1] eqn:Hrun.
  - destruct (k a d1) as [[r2 d2] log2] eqn:Hrun2.
    intros [= <- <- <-].
    pose proof (Hc _ _ _ _ Hrun). pose proof (Hk a _ _ _ _ Hrun2).
    rewrite starts_sent_app, times_tracked_app. lia.
  - intros [= <- <- <-]. exact (Hc _ _ _ _ Hrun).
Qed.

Lemma starts_accounted_for_each {A : Type} (xs : list A) (body : A -> M unit) :
  (forall x, starts_accounted run_id (body x)) ->
  starts_accounted run_id (for_each xs body).
Proof.
  intros Hbody. induction xs as [ | x xs IH]; simpl.
  - intros d r d' log [= <- <- <-]. reflexivity.
  - apply starts_accounted_bind; [apply Hbody | intros _; exact IH].
Qed.

Lemma undisturbed_bind {A B : Type} (c : M A) (k : A -> M B) :
  undisturbed run_id c ->
  (forall a, undisturbed run_id (k a)) ->
  undisturbed run_id (bind c k).
Proof.
  intros Hc Hk d r d' log Hnodup. unfold bind.
  destruct (c d) as [[[a | e] d1] log1] eqn:Hrun.
  - destruct (k a d1) as [[r2 d2] log2] eqn:Hrun2.
    intros [= <- <- <-].
    destruct (Hc _ _ _ _ Hnodup Hrun) as [Hnodup1 Hages1].
    destruct (Hk a _ _ _ _ Hnodup1 Hrun2) as [Hnodup2 Hages2].
    split; [exact Hnodup2 | ].
    rewrite times_tracked_app. intros Hzero.
    apply (ages_trans _ (dict_get run_id d1)); [apply Hages1 | apply Hages2];
      lia.
  - intros [= <- <- <-]. exact (Hc _ _ _ _ Hnodup Hrun).
Qed.

Lemma undisturbed_quiet {A : Type} (c : M A) :
  (forall d, exists r, c d = (r, d, [])) -> undisturbed run_id c.
Proof.
  intros Hc d r d' log Hnodup Hrun.
  destruct (Hc d) as [r0 H0]. rewrite H0 in Hrun.
  injection Hrun as <- <- <-. split; [exact Hnodup | ].
  intros _. apply ages_refl.
Qed.

Lemma undisturbed_for_each {A : Type} (xs : list A) (body : A -> M unit) :
  (forall x, undisturbed run_id (body x)) ->
  undisturbed run_id (for_each xs body).
Proof.
  intros Hbody. induction xs as [ | x xs IH]; simpl.
  - apply undisturbed_quiet. intros d. eexists. reflexivity.
  - apply undisturbed_bind; [apply Hbody | intros _; exact IH].
Qed.

Section Steps.

Context {DT : Datetime}.
Context (self : GitHubActionsMonitor) (send_notification : option callback).

Lemma process_new_run_log (run : run_data) (d d' : monitored)
    (r : res unit) (log : list event) :
  process_new_run self send_notification run d = (r, d', log) ->
  (d' = d /\ log = [] /\ dict_contains (id run) d = true)
  \/ (exists entry notices,
         dict_get (id run) d = None
         /\ d' = (d ++ [(id run, entry)])%list
         /\ log = Tracked (id run) new_entry :: notices
         /\ (notices = []
             \/ exists message,
                  notices = [Sent StartNotice (id run) message]
                  \/ notices = [SendFailed StartNotice (id run) message])).
Proof.
  destruct (dict_contains (id run) d) eqn:Hknown.
  - rewrite (process_new_run_known _ _ _ _ Hknown).
    intros [= <- <- <-]. left. auto.
  - rewrite (process_new_run_fresh _ _ _ _ Hknown).
    apply dict_contains_false in Hknown. intros Hrun. right.
    destruct send_notification as [send | ].
    + destruct (create_start_message self run) as [message | e0].
      * destruct (send message) as [[] | e0]; injection Hrun as <- <- <-;
          eexists; eexists; repeat split; eauto.
      * injection Hrun as <- <- <-. eexists. eexists. repeat split; eauto.
    + injection Hrun as <- <- <-. eexists. eexists. repeat split; eauto.
Qed.

Lemma starts_accounted_process_new_run (run : run_data) :
  starts_accounted run_id (process_new_run self send_notification run).
Proof.
  intros d r d' log Hrun. apply process_new_run_log in Hrun.
  destruct Hrun as [(_ & -> & _) | (entry & notices & _ & _ & -> & Hn)];
    [reflexivity | ].
  unfold starts_sent, times_tracked.
  destruct Hn as [-> | [message [-> | ->]]]; simpl;
    destruct (id run =? run_id)%Z; simpl; lia.
Qed.

Lemma starts_accounted_check_completed_run (w : world) (key : Z) :
  starts_accounted run_id (check_completed_run self send_notification w key).
Proof.
  intros d r d' log Hrun. apply check_completed_run_cases in Hrun.
  assert (Hzero : starts_sent run_id log = 0%nat); [ | lia].
  unfold starts_sent.
  destruct Hrun as [[_ Hlog] | Hsent].
  - rewrite filter_none; [reflexivity | ].
    intros e He. destruct (Hlog e He) as [-> | [message ->]]; reflexivity.
  - destruct Hsent as (entry & run_details & send & message & _ & _ & _ & _
                       & _ & _ & _ & _ & ->).
    reflexivity.
Qed.

Lemma undisturbed_process_new_run (run : run_data) :
  undisturbed run_id (process_new_run self send_notification run).
Proof.
  intros d r d' log Hnodup Hrun. apply process_new_run_log in Hrun.
  destruct Hrun as [(-> & -> & _) | (entry & notices & Hnone & -> & -> & _)].
  - split; [exact Hnodup | intros _; apply ages_refl].
  - split; [apply NoDup_keys_append; assumption | ].
    unfold times_tracked. simpl.
    destruct (Z.eqb_spec (id run) run_id) as [E | Hne]; simpl;
      [discriminate | ].
    intros _. rewrite dict_get_app. simpl.
    destruct (Z.eqb_spec (id run) run_id); [contradiction | ].
    destruct (dict_get run_id d); apply ages_refl.
Qed.

Lemma undisturbed_check_completed_run (w : world) (key : Z) :
  undisturbed run_id (check_completed_run self send_notification w key).
Proof.
  intros d r d' log Hnodup Hrun. apply check_completed_run_cases in Hrun.
  destruct Hrun as [[-> _] | Hsent].
  - split; [exact Hnodup | intros _; apply ages_refl].
  - destruct Hsent as (entry & run_details & send & message & Hget & _ & _
                       & _ & _ & _ & _ & -> & _).
    split; [rewrite (dict_keys_set_tracked _ _ _ _ Hget); exact Hnodup | ].
    intros _. destruct (Z.eq_dec key run_id) as [-> | Hne].
    + rewrite dict_get_set_same, Hget. right.
      eexists. eexists. repeat split; reflexivity.
    + rewrite (dict_get_set_other _ _ _ _ Hne). apply ages_refl.
Qed.

Lemma undisturbed_cleanup_old_runs : undisturbed run_id cleanup_old_runs.
Proof.
  intros d r d' log Hnodup. rewrite cleanup_old_runs_run.
  destruct (50 <? List.length d)%nat; intros [= <- <- <-].
  - split.
    + unfold dict_keys in *. rewrite <- skipn_map.
      rewrite <- (firstn_skipn (List.length d - 30) (map fst d)) in Hnodup.
      exact (NoDup_app_remove_l _ _ Hnodup).
    + intros _.
      destruct (dict_get run_id (skipn (List.length d - 30) d))
        as [entry | ] eqn:Hget; [ | left; reflexivity].
      rewrite (dict_get_skipn _ _ _ _ Hnodup Hget). apply ages_refl.
  - split; [exact Hnodup | intros _; apply ages_refl].
Qed.

Lemma starts_accounted_monitor_cycle (branch : pyval) (w : world) :
  starts_accounted run_id (monitor_cycle self branch send_notification w).
Proof.
  unfold monitor_cycle. apply starts_accounted_bind.
  - apply starts_accounted_for_each. intros run.
    apply starts_accounted_process_new_run.
  - intros _. apply starts_accounted_bind.
    + unfold check_completed_runs. apply starts_accounted_bind.
      * intros d r d' log [= <- <- <-]. reflexivity.
      * intros run_ids. apply starts_accounted_for_each. intros key.
        apply starts_accounted_check_completed_run.
    + intros _ d r d' log. rewrite cleanup_old_runs_run.
      destruct (50 <? List.length d)%nat; intros [= <- <- <-]; reflexivity.
Qed.

Lemma undisturbed_monitor_cycle (branch : pyval) (w : world) :
  undisturbed run_id (monitor_cycle self branch send_notification w).
Proof.
  unfold monitor_cycle. apply undisturbed_bind.
  - apply undisturbed_for_each. intros run. apply undisturbed_process_new_run.
  - intros _. apply undisturbed_bind.
    + unfold check_completed_runs. apply undisturbed_bind.
      * apply undisturbed_quiet. intros d. eexists. reflexivity.
      * intros run_ids. apply undisturbed_for_each. intros key.
        apply undisturbed_check_completed_run.
    + intros _. apply undisturbed_cleanup_old_runs.
Qed.

Lemma lifetime_monitor_loop (branch : pyval) (worlds : list world) :
  forall d d' log,
    NoDup (dict_keys d) ->
    monitor_loop self branch send_notification worlds d = (d', log) ->
    NoDup (dict_keys d')
    /\ (starts_sent run_id log <= times_tracked run_id log)%nat
    /\ (times_tracked run_id log = 0%nat ->
        ages (dict_get run_id d) (dict_get run_id d')).
Proof.
  induction worlds as [ | w worlds IH]; intros d d' log Hnodup; simpl.
  - intros [= <- <-]. split; [exact Hnodup | ].
    split; [reflexivity | intros _; apply ages_refl].
  - destruct (monitor_cycle self branch send_notification w d)
      as [[r d1] log1] eqn:Hcycle.
    destruct (monitor_loop self branch send_notification worlds d1)
      as [d2 log2] eqn:Hloop.
    intros [= <- <-].
    destruct (undisturbed_monitor_cycle branch w _ _ _ _ Hnodup Hcycle)
      as [Hnodup1 Hages1].
    pose proof (starts_accounted_monitor_cycle branch w _ _ _ _ Hcycle)
      as Hstarts1.
    destruct (IH _ _ _ Hnodup1 Hloop) as (Hnodup2 & Hstarts2 & Hages2).
    split; [exact Hnodup2 | ].
    rewrite starts_sent_app, times_tracked_app.
    split; [lia | ].
    intros Hzero.
    apply (ages_trans _ (dict_get run_id d1)); [apply Hages1 | apply Hages2];
      lia.
Qed.

End Steps.

End Lifetime.

Lemma starts_accounted_monitor_loop {DT : Datetime}
    (self : GitHubActionsMonitor) (branch : pyval) (later : option callback)
    (run_id : Z) (worlds : list world) :
  forall d,
    (starts_sent run_id (snd (monitor_loop self branch later worlds d))
     <= times_tracked run_id
          (snd (monitor_loop self branch later worlds d)))%nat.
Proof.
  induction worlds as [ | w worlds IH]; intros d; simpl; [reflexivity | ].
  destruct (monitor_cycle self branch later w d) as [[r d1] log1] eqn:Hcycle.
  pose proof (starts_accounted_monitor_cycle run_id self later branch w
                _ _ _ _ Hcycle) as H1.
  pose proof (IH d1) as H2.
  destruct (monitor_loop self branch later worlds d1) as [d2 log2].
  simpl in *. rewrite starts_sent_app, times_tracked_app. lia.
Qed.

Section StartNotifications.

Context {DT : Datetime}.
Context (self : GitHubActionsMonitor) (branch : pyval)
  (send_notification : option callback).

(** X7: a start notification is sent only in the turn that enters its run
    into the table.  Over any number of cycles from any table, the start
    notifications taken by the callback for an identifier are never more
    than the times the identifier was entered; a run that is already
    tracked gets none, whatever its start flag says. *)
Theorem start_notified_only_on_entry
    (worlds : list world) (d : monitored) (run_id : Z) :
  let log := snd (monitor_loop self branch send_notification worlds d) in
  (starts_sent run_id log <= times_tracked run_id log)%nat
  /\ (times_tracked run_id log = 0%nat -> starts_sent run_id log = 0%nat)
  /\ forall runs,
       dict_contains run_id d = true ->
       (forall run, In run runs -> id run = run_id) ->
       process_new_runs self send_notification runs d = (Ok tt, d, []).
Proof.
  intros log.
  pose proof (starts_accounted_monitor_loop self branch send_notification
                run_id worlds d) as Hle.
  fold log in Hle.
  split; [exact Hle | ]. split; [lia | ].
  intros runs Hknown Hruns. apply process_new_runs_all_known.
  intros run Hin. rewrite (Hruns run Hin). exact Hknown.
Qed.

(** X8: while an identifier is not entered anew, its entry only ages: over
    any number of cycles it is either evicted or still there with the start
    flag it had and with a completion flag that was not unset.  So the start
    flag of an entry is settled by the cycle that made the entry. *)
Theorem tracked_entry_only_ages
    (worlds : list world) (d : monitored) (run_id : Z) :
  NoDup (dict_keys d) ->
  let d' := fst (monitor_loop self branch send_notification worlds d) in
  let log := snd (monitor_loop self branch send_notification worlds d) in
  times_tracked run_id log = 0%nat ->
  (dict_get run_id d = None -> dict_get run_id d' = None)
  /\ forall entry,
       dict_get run_id d = Some entry ->
       dict_get run_id d' = None
       \/ exists entry',
            dict_get run_id d' = Some entry'
            /\ notified_start entry' = notified_start entry
            /\ (notified_end entry = true -> notified_end entry' = true).
Proof.
  intros Hnodup d' log Hzero. subst d' log.
  destruct (monitor_loop self branch send_notification worlds d)
    as [d' log] eqn:Hloop.
  destruct (lifetime_monitor_loop run_id self send_notification branch worlds
              _ _ _ Hnodup Hloop) as (_ & _ & Hages).
  simpl in *. specialize (Hages Hzero).
  split.
  - intros Hnone. rewrite Hnone in Hages.
    destruct Hages as [H | (e & e' & H & _)]; [exact H | discriminate].
  - intros entry Hget. rewrite Hget in Hages.
    destruct Hages as [H | (e & e' & [= <-] & H & Hs & He)]; [auto | ].
    right. exists e'. auto.
Qed.

Lemma process_new_runs_app (before rest : list run_data) :
  forall d0 d log0,
    process_new_runs self send_notification before d0 = (Ok tt, d, log0) ->
    process_new_runs self send_notification (before ++ rest)%list d0
    = match process_new_runs self send_notification rest d with
      | (r, d', log) => (r, d', (log0 ++ log)%list)
      end.
Proof.
  induction before as [ | run before IH]; intros d0 d log0.
  - intros [= <- <-]. simpl app.
    destruct (process_new_runs self send_notification rest d0)
      as [[r d'] log].
    reflexivity.
  - simpl app. rewrite !process_new_runs_cons.
    destruct (process_new_run self send_notification run d0)
      as [[[[] | e1] d1] log1]; [ | discriminate].
    destruct (process_new_runs self send_notification before d1)
      as [[r2 d2] log2] eqn:Hbefore.
    intros [= -> <- <-]. rewrite (IH _ _ _ Hbefore).
    destruct (process_new_runs self send_notification rest d2)
      as [[r d'] log].
    rewrite app_assoc. reflexivity.
Qed.

(** X9: when the turn of a new run does not return, because its start
    message cannot be composed or because the callback raises, the run has
    been entered into the table all the same, with its start flag unset and
    no start notification taken; the cycle ends there with that exception,
    and the runs listed after it wait for a later cycle.  From then on the
    run is passed over wherever it is listed, on every table that still
    holds it: for as long as it is not entered anew, which needs its
    eviction first, no start notification is sent for it and its entry
    keeps its start flag unset. *)
Theorem failed_start_is_not_retried
    (before rest : list run_data) (run : run_data) (d0 d d1 : monitored)
    (e : exn) (log0 log1 : list event) :
  process_new_runs self send_notification before d0 = (Ok tt, d, log0) ->
  dict_contains (id run) d = false ->
  process_new_run self send_notification run d = (Raise e, d1, log1) ->
  d1 = (d ++ [(id run, new_entry)])%list
  /\ starts_sent (id run) log1 = 0%nat
  /\ process_new_runs self send_notification (before ++ run :: rest)%list d0
     = (Raise e, d1, (log0 ++ log1)%list)
  /\ (forall w,
        active_runs self branch w = (before ++ run :: rest)%list ->
        monitor_cycle self branch send_notification w d0
        = (Raise e, d1, (log0 ++ log1)%list))
  /\ (forall later listed table,
        dict_contains (id run) table = true ->
        process_new_runs self later listed table
        = process_new_runs self later
            (filter (fun x => negb (id x =? id run)%Z) listed) table)
  /\ (forall later worlds,
        let log :=
          snd (monitor_loop self branch later worlds d1) in
        times_tracked (id run) log = 0%nat ->
        starts_sent (id run) log = 0%nat)
  /\ (forall later worlds,
        NoDup (dict_keys d) ->
        let table := fst (monitor_loop self branch later worlds d1) in
        let log := snd (monitor_loop self branch later worlds d1) in
        times_tracked (id run) log = 0%nat ->
        dict_get (id run) table = None
        \/ exists entry,
             dict_get (id run) table = Some entry
             /\ notified_start entry = false).
Proof.
  intros Hbefore Hfresh Hstep.
  assert (Hpass : process_new_runs self send_notification
                    (before ++ run :: rest)%list d0
                  = (Raise e, d1, (log0 ++ log1)%list)).
  { rewrite (process_new_runs_app _ _ _ _ _ Hbefore).
    rewrite process_new_runs_cons, Hstep. reflexivity. }
  rewrite (process_new_run_fresh _ _ _ _ Hfresh) in Hstep.
  assert (Hd1 : d1 = (d ++ [(id run, new_entry)])%list
                /\ starts_sent (id run) log1 = 0%nat).
  { destruct send_notification as [send | ]; [ | discriminate].
    destruct (create_start_message self run) as [message | e0].
    - destruct (send message) as [[] | e0]; [discriminate | ].
      injection Hstep as <- <- <-. split; reflexivity.
    - injection Hstep as <- <- <-. split; reflexivity. }
  destruct Hd1 as [Hd1 Hnone].
  split; [exact Hd1 | ]. split; [exact Hnone | ]. split; [exact Hpass | ].
  split.
  { intros w Hactive. unfold monitor_cycle, bind.
    rewrite Hactive, Hpass. reflexivity. }
  split.
  { intros later listed table Hknown. symmetry.
    apply process_new_runs_skip_known, Hknown. }
  split.
  { intros later worlds log Hzero.
    pose proof (starts_accounted_monitor_loop self branch later (id run)
                  worlds d1) as Hle.
    fold log in Hle. lia. }
  intros later worlds Hnodup table log Hzero. subst table log.
  destruct (monitor_loop self branch later worlds d1) as [d2 log2] eqn:Hloop.
  assert (Hnodup1 : NoDup (dict_keys d1)).
  { rewrite Hd1. apply NoDup_keys_append; [exact Hnodup | ].
    apply dict_contains_false, Hfresh. }
  destruct (lifetime_monitor_loop (id run) self later branch worlds
              _ _ _ Hnodup1 Hloop) as (_ & _ & Hages).
  simpl in *. specialize (Hages Hzero).
  assert (Hentry : dict_get (id run) d1 = Some new_entry).
  { rewrite Hd1, dict_get_app.
    apply dict_contains_false in Hfresh. rewrite Hfresh. simpl.
    rewrite Z.eqb_refl. reflexivity. }
  rewrite Hentry in Hages.
  destruct Hages as [H | (e1 & e2 & [= <-] & H & Hs & _)]; [auto | ].
  right. exists e2. split; [exact H | exact Hs].
Qed.

End StartNotifications.

Lemma tracked_entry_only_ages_witness :
  let d := [(1%Z, {| notified_start := false; notified_end := false |})] in
  let d' := fst (monitor_loop Sample.self (PStr "main") (Some Sample.sink)
                   Sample.run_again d) in
  dict_get 1 d' = Some {| notified_start := false; notified_end := true |}.
Proof.
  intros d d'.
  destruct (tracked_entry_only_ages Sample.self (PStr "main")
              (Some Sample.sink) Sample.run_again d 1) as [_ H].
  - repeat constructor. simpl. tauto.
  - reflexivity.
  - reflexivity.
Defined.

Lemma failed_start_is_not_retried_witness :
  process_new_runs Sample.self (Some Sample.sink)
    [Sample.queued_run 4; null_commit_run 5; Sample.queued_run 6] []
  = (Raise AttributeError,
     [(4%Z, entry_after_start (Some Sample.sink)); (5%Z, new_entry)],
     snd (process_new_runs Sample.self (Some Sample.sink)
            [Sample.queued_run 4] [])
     ++ [Tracked 5 new_entry])%list
  /\ process_new_runs Sample.self (Some Sample.sink)
       [Sample.queued_run 6; null_commit_run 5]
       [(4%Z, entry_after_start (Some Sample.sink)); (5%Z, new_entry)]
     = process_new_runs Sample.self (Some Sample.sink)
         [Sample.queued_run 6]
         [(4%Z, entry_after_start (Some Sample.sink)); (5%Z, new_entry)].
Proof.
  destruct (failed_start_is_not_retried (DT := IsoSeconds.lib) Sample.self
              (PStr "main") (Some Sample.sink) [Sample.queued_run 4]
              [Sample.queued_run 6] (null_commit_run 5) []
              [(4%Z, entry_after_start (Some Sample.sink))]
              [(4%Z, entry_after_start (Some Sample.sink)); (5%Z, new_entry)]
              AttributeError
              (snd (process_new_runs Sample.self (Some Sample.sink)
                      [Sample.queued_run 4] []))
              [Tracked 5 new_entry] eq_refl eq_refl eq_refl)
    as (_ & _ & Hpass & _ & Hlater & _).
  split; [exact Hpass | ].
  apply (Hlater (Some Sample.sink)
           [Sample.queued_run 6; null_commit_run 5]).
  reflexivity.
Defined.

Lemma start_notified_only_on_entry_witness :
  process_new_runs Sample.self (Some Sample.sink)
    [Sample.queued_run 1; Sample.running_run 1] (Sample.table 2)
  = (Ok tt, Sample.table 2, []).
Proof.
  apply (start_notified_only_on_entry (DT := IsoSeconds.lib) Sample.self
           (PStr "main") (Some Sample.sink) [] (Sample.table 2) 1).
  - reflexivity.
  - intros run [<- | [<- | []]]; reflexivity.
Defined.

(* ===================================================================== *)
(** ** The size of the table *)

Section Cycle.

Context {DT : Datetime}.
Context (self : GitHubActionsMonitor) (branch : pyval)
  (send_notification : option callback).

Lemma process_new_runs_size (runs : list run_data) :
  forall d r d' log,
    process_new_runs self send_notification runs d = (r, d', log) ->
    (List.length d <= List.length d' <= List.length d + List.length runs)%nat.
Proof.
  induction runs as [ | run runs IH]; intros d r d' log.
  - intros [= <- <- <-]. simpl. lia.
  - rewrite process_new_runs_cons.
    destruct (process_new_run self send_notification run d)
      as [[r1 d1] log1] eqn:Hstep.
    assert (Hone : (List.length d <= List.length d1 <= S (List.length d))%nat).
    { apply process_new_run_log in Hstep.
      destruct Hstep as [(-> & _) | (entry & notices & _ & -> & _)].
      - lia.
      - rewrite length_app. simpl. lia. }
    destruct r1 as [[] | e1].
    + destruct (process_new_runs self send_notification runs d1)
        as [[r2 d2] log2] eqn:Hrest.
      intros [= <- <- <-]. pose proof (IH _ _ _ _ Hrest). simpl. lia.
    + intros [= <- <- <-]. simpl. lia.
Qed.

Lemma check_completed_loop_size (w : world) (run_ids : list Z) :
  forall d r d' log,
    for_each run_ids (check_completed_run self send_notification w) d
    = (r, d', log) ->
    List.length d' = List.length d.
Proof.
  induction run_ids as [ | key run_ids IH]; intros d r d' log.
  - intros [= <- <- <-]. reflexivity.
  - rewrite for_each_cons.
    destruct (check_completed_run self send_notification w key d)
      as [[r1 d1] log1] eqn:Hstep.
    assert (Hone : List.length d1 = List.length d).
    { apply check_completed_run_cases in Hstep.
      destruct Hstep as [[-> _] | Hsent]; [reflexivity | ].
      destruct Hsent as (entry & run_details & send & message & Hget & _ & _
                         & _ & _ & _ & _ & -> & _).
      pose proof (dict_keys_set_tracked key
                    {| notified_start := notified_start entry;
                       notified_end := true |} entry d Hget) as Hkeys.
      apply (f_equal (@List.length Z)) in Hkeys.
      unfold dict_keys in Hkeys. rewrite !length_map in Hkeys. exact Hkeys. }
    destruct r1 as [[] | e1].
    + destruct (for_each run_ids
                  (check_completed_run self send_notification w) d1)
        as [[r2 d2] log2] eqn:Hrest.
      intros [= <- <- <-]. rewrite (IH _ _ _ _ Hrest). exact Hone.
    + intros [= <- <- <-]. exact Hone.
Qed.

(** X11: a cycle that returns leaves at most 50 entries in the table.  A
    cycle that raises has skipped the eviction: it leaves all the entries
    it found, and the bound of 50 is not restored by it.  In either case a
    cycle adds at most one entry per listed run. *)
Theorem table_size_after_a_cycle (w : world) (d d' : monitored)
    (r : res unit) (log : list event) :
  monitor_cycle self branch send_notification w d = (r, d', log) ->
  (r = Ok tt -> (List.length d' <= 50)%nat)
  /\ (List.length d'
      <= List.length d + List.length (active_runs self branch w))%nat
  /\ (forall e, r = Raise e -> (List.length d <= List.length d')%nat).
Proof.
  unfold monitor_cycle, bind.
  destruct (process_new_runs self send_notification
              (active_runs self branch w) d)
    as [[[[] | e1] d1] log1] eqn:Hnew;
    pose proof (process_new_runs_size _ _ _ _ _ Hnew) as Hsize1.
  - rewrite check_completed_runs_run.
    destruct (for_each (dict_keys d1)
                (check_completed_run self send_notification w) d1)
      as [[[[] | e2] d2] log2] eqn:Hcheck;
      pose proof (check_completed_loop_size _ _ _ _ _ _ Hcheck) as Hsize2.
    + rewrite cleanup_old_runs_run.
      destruct (Nat.ltb_spec 50 (List.length d2)); intros [= <- <- <-].
      * rewrite length_skipn. repeat split; try lia; discriminate.
      * repeat split; try lia; discriminate.
    + intros [= <- <- <-]. repeat split; try lia; discriminate.
  - intros [= <- <- <-]. repeat split; try lia; discriminate.
Qed.

End Cycle.

Lemma table_size_after_a_cycle_witness :
  (List.length
     (snd (fst (monitor_cycle (DT := IsoSeconds.lib) Sample.self
                  (PStr "main") (Some Sample.sink)
                  (Sample.cycle [60%Z] [] []) (Sample.table 50))))
   <= 50)%nat.
Proof.
  destruct (monitor_cycle (DT := IsoSeconds.lib) Sample.self (PStr "main")
              (Some Sample.sink) (Sample.cycle [60%Z] [] [])
              (Sample.table 50)) as [[r d'] log] eqn:Hcycle.
  apply (table_size_after_a_cycle (DT := IsoSeconds.lib) _ _ _ _ _ _ _ _
           Hcycle).
  vm_compute in Hcycle. congruence.
Defined.

(* ===================================================================== *)
(** ** What a cycle touches *)

Section Confinement.

Context (allowed : list Z).

Lemma confined_bind {A B : Type} (c : M A) (k : A -> M B) :
  confined allowed c ->
  (forall a, confined allowed (k a)) ->
  confined allowed (bind c k).
Proof.
  intros Hc Hk d r d' log. unfold bind.
  destruct (c d) as [[[a | e] d1] log1] eqn:Hrun.
  - destruct (k a d1) as [[r2 d2] log2] eqn:Hrun2.
    intros [= <- <- <-].
    destruct (Hc _ _ _ _ Hrun) as [Hlog1 Hkeys1].
    destruct (Hk a _ _ _ _ Hrun2) as [Hlog2 Hkeys2].
    split.
    + intros ev Hev. apply in_app_or in Hev. destruct Hev as [Hev | Hev].
      * auto.
      * destruct (Hlog2 ev Hev) as [H | H]; auto.
    + intros key Hkey. destruct (Hkeys2 key Hkey) as [H | H]; auto.
  - intros [= <- <- <-]. exact (Hc _ _ _ _ Hrun).
Qed.

Lemma confined_quiet {A : Type} (c : M A) :
  (forall d, exists r, c d = (r, d, [])) -> confined allowed c.
Proof.
  intros Hc d r d' log Hrun.
  destruct (Hc d) as [r0 H0]. rewrite H0 in Hrun.
  injection Hrun as <- <- <-. split; [intros e [] | auto].
Qed.

Lemma confined_for_each {A : Type} (xs : list A) (body : A -> M unit) :
  (forall x, In x xs -> confined allowed (body x)) ->
  confined allowed (for_each xs body).
Proof.
  induction xs as [ | x xs IH]; intros Hbody; simpl.
  - apply confined_quiet. intros d. eexists. reflexivity.
  - apply confined_bind; [apply Hbody; simpl; auto | intros _; apply IH].
    intros y Hy. apply Hbody. simpl. auto.
Qed.

Section Steps.

Context {DT : Datetime}.
Context (self : GitHubActionsMonitor) (send_notification : option callback).

Lemma confined_process_new_run (run : run_data) :
  In (id run) allowed ->
  confined allowed (process_new_run self send_notification run).
Proof.
  intros Hallowed d r d' log Hrun. apply process_new_run_log in Hrun.
  destruct Hrun as [(-> & -> & _) | (entry & notices & _ & -> & -> & Hn)].
  - split; [intros e [] | auto].
  - split.
    + intros ev [<- | Hev]; [right; exact Hallowed | ].
      destruct Hn as [-> | [message [-> | ->]]];
        [destruct Hev | | ]; destruct Hev as [<- | []]; right; exact Hallowed.
    + intros key. rewrite dict_keys_app, in_app_iff. simpl.
      intros [H | [<- | []]]; auto.
Qed.

Lemma confined_check_completed_run (w : world) (key : Z) :
  confined allowed (check_completed_run self send_notification w key).
Proof.
  intros d r d' log Hrun.
  destruct (dict_get key d) as [entry | ] eqn:Hget.
  - assert (Hin : In key (dict_keys d))
      by (apply dict_contains_keys, dict_contains_get; eauto).
    apply check_completed_run_cases in Hrun.
    destruct Hrun as [[-> Hlog] | Hsent].
    + split; [ | auto].
      intros ev Hev. destruct (Hlog ev Hev) as [-> | [message ->]]; auto.
    + destruct Hsent as (entry' & run_details & send & message & Hget' & _
                         & _ & _ & _ & _ & _ & -> & ->).
      split.
      * intros ev [<- | [<- | []]]; auto.
      * rewrite (dict_keys_set_tracked _ _ _ _ Hget'). auto.
  - rewrite (check_completed_run_untracked _ _ _ _ _ Hget) in Hrun.
    injection Hrun as <- <- <-. split; [intros ev [] | auto].
Qed.

End Steps.

End Confinement.

Section Reach.

Context {DT : Datetime}.
Context (self : GitHubActionsMonitor) (branch : pyval)
  (send_notification : option callback).

(** X12: a cycle touches only runs that the table held when it began or
    that the provider lists in it: every run it enters into the table,
    requests the details of, or calls the callback about is one of these,
    and so is every run in the table it leaves. *)
Theorem cycle_reach (w : world) (d d' : monitored) (r : res unit)
    (log : list event) :
  monitor_cycle self branch send_notification w d = (r, d', log) ->
  (forall e, In e log ->
     In (event_run e) (dict_keys d)
     \/ In (event_run e) (map id (active_runs self branch w)))
  /\ (forall key, In key (dict_keys d') ->
        In key (dict_keys d)
        \/ In key (map id (active_runs self branch w))).
Proof.
  revert d r d' log.
  change (confined (map id (active_runs self branch w))
            (monitor_cycle self branch send_notification w)).
  unfold monitor_cycle. apply confined_bind.
  - apply confined_for_each. intros run Hrun.
    apply confined_process_new_run, in_map, Hrun.
  - intros _. apply confined_bind.
    + unfold check_completed_runs. apply confined_bind.
      * apply confined_quiet. intros d. eexists. reflexivity.
      * intros run_ids. apply confined_for_each. intros key _.
        apply confined_check_completed_run.
    + intros _ d r d' log. rewrite cleanup_old_runs_run.
      destruct (50 <? List.length d)%nat; intros [= <- <- <-];
        (split; [intros e [] | ]); [ | auto].
      intros key Hkey. left. unfold dict_keys in *.
      rewrite <- skipn_map in Hkey.
      rewrite <- (firstn_skipn (List.length d - 30) (map fst d)).
      apply in_or_app. auto.
Qed.

Lemma fetched_app (log1 log2 : list event) :
  fetched (log1 ++ log2)%list = (fetched log1 ++ fetched log2)%list.
Proof.
  induction log1 as [ | [ | | | ] log1 IH]; simpl; rewrite ?IH; reflexivity.
Qed.

Lemma check_completed_loop_fetches (w : world) (run_ids : list Z) :
  forall d d' log,
    NoDup run_ids ->
    for_each run_ids (check_completed_run self send_notification w) d
    = (Ok tt, d', log) ->
    fetched log = filter (awaits_completion d) run_ids.
Proof.
  induction run_ids as [ | key run_ids IH]; intros d d' log Hnodup.
  - intros [= <- <-]. reflexivity.
  - rewrite for_each_cons.
    destruct (check_completed_run self send_notification w key d)
      as [[[[] | e1] d1] log1] eqn:Hstep; [ | discriminate].
    destruct (for_each run_ids
                (check_completed_run self send_notification w) d1)
      as [[r2 d2] log2] eqn:Hrest.
    intros [= -> <- <-].
    inversion Hnodup as [ | ? ? Hnotin Hnodup']; subst.
    rewrite fetched_app, (IH _ _ _ Hnodup' Hrest).
    assert (Hsame : filter (awaits_completion d1) run_ids
                    = filter (awaits_completion d) run_ids).
    { apply filter_ext_in. intros k Hk. unfold awaits_completion.
      assert (Hne : key <> k) by (intros ->; contradiction).
      destruct (check_completed_run_other _ _ _ _ _ _ _ _ _ Hne Hstep)
        as [-> _].
      reflexivity. }
    rewrite Hsame. simpl. unfold awaits_completion at 2.
    destruct (dict_get key d) as [entry | ] eqn:Hget.
    + rewrite (check_completed_run_tracked _ _ _ _ _ _ Hget) in Hstep.
      destruct (notified_end entry); simpl.
      * injection Hstep as <- <-. reflexivity.
      * destruct (get_run_details self (http_run w) key) as [run_details | ];
          [ | injection Hstep as <- <-; reflexivity].
        destruct (py_eq_str (status run_details) "completed");
          [ | injection Hstep as <- <-; reflexivity].
        destruct send_notification as [send | ];
          [ | injection Hstep as <- <-; reflexivity].
        destruct (create_completion_message self (now w) run_details)
          as [message | e0]; [ | discriminate].
        destruct (send message) as [[] | e0]; [ | discriminate].
        injection Hstep as <- <-. reflexivity.
    + rewrite (check_completed_run_untracked _ _ _ _ _ Hget) in Hstep.
      discriminate.
Qed.

(** X13: a completed-run check that returns has requested the details of
    exactly the tracked runs whose completion flag was unset when it began,
    once each and in the order in which they were entered into the table;
    runs already notified cost no request. *)
Theorem check_requests_pending_runs (w : world) (d d' : monitored)
    (log : list event) :
  NoDup (dict_keys d) ->
  check_completed_runs self send_notification w d = (Ok tt, d', log) ->
  fetched log = filter (awaits_completion d) (dict_keys d)
  /\ NoDup (fetched log)
  /\ forall run_id,
       In run_id (fetched log)
       <-> exists entry,
             dict_get run_id d = Some entry /\ notified_end entry = false.
Proof.
  intros Hnodup Hcheck. rewrite check_completed_runs_run in Hcheck.
  pose proof (check_completed_loop_fetches _ _ _ _ _ Hnodup Hcheck) as Hf.
  split; [exact Hf | ]. rewrite Hf. split.
  - apply NoDup_filter, Hnodup.
  - intros run_id. rewrite filter_In. unfold awaits_completion. split.
    + intros [_ H]. destruct (dict_get run_id d) as [entry | ];
        [ | discriminate].
      exists entry. split; [reflexivity | ].
      apply negb_true_iff, H.
    + intros (entry & Hget & Hend). split.
      * apply dict_contains_keys, dict_contains_get. eauto.
      * rewrite Hget, Hend. reflexivity.
Qed.

End Reach.

Lemma cycle_reach_witness :
  Forall (fun e => In (event_run e) [1; 2; 7]%Z)
    (snd (monitor_cycle (DT := IsoSeconds.lib) Sample.self (PStr "main")
            (Some Sample.sink) (Sample.cycle [7%Z] [] [1%Z])
            (Sample.table 2))).
Proof.
  apply Forall_forall. intros e He.
  destruct (monitor_cycle (DT := IsoSeconds.lib) Sample.self (PStr "main")
              (Some Sample.sink) (Sample.cycle [7%Z] [] [1%Z])
              (Sample.table 2)) as [[r d'] log] eqn:Hcycle.
  destruct (cycle_reach (DT := IsoSeconds.lib) _ _ _ _ _ _ _ _ Hcycle)
    as [Hlog _].
  destruct (Hlog e He) as [H | H]; vm_compute in H; simpl; tauto.
Defined.

Lemma check_requests_pending_runs_witness :
  let d := [ (1%Z, {| notified_start := true; notified_end := true |});
             (2%Z, {| notified_start := true; notified_end := false |});
             (3%Z, {| notified_start := false; notified_end := false |}) ] in
  exists d' log,
    check_completed_runs (DT := IsoSeconds.lib) Sample.self
      (Some Sample.sink) (Sample.cycle [] [] [3%Z]) d = (Ok tt, d', log)
    /\ fetched log = [2; 3]%Z.
Proof.
  intros d.
  destruct (check_completed_runs (DT := IsoSeconds.lib) Sample.self
              (Some Sample.sink) (Sample.cycle [] [] [3%Z]) d)
    as [[r d'] log] eqn:Hcheck.
  assert (Hr : r = Ok tt) by (vm_compute in Hcheck; congruence).
  subst r. exists d', log. split; [reflexivity | ].
  destruct (check_requests_pending_runs (DT := IsoSeconds.lib) Sample.self
              (Some Sample.sink) (Sample.cycle [] [] [3%Z]) d d' log)
    as [Hf _].
  - repeat constructor; simpl; intuition discriminate.
  - exact Hcheck.
  - rewrite Hf. reflexivity.
Defined.

Lemma start_message_failures_witness :
  create_start_message Sample.self
    {| id := 5; status := PStr "queued"; name := None; head_branch := None;
       actor := Some NestedNull; run_number := None; head_commit := None;
       conclusion := None; created_at := None; updated_at := None;
       html_url := None |}
  = Raise AttributeError
  /\ create_start_message Sample.self
       {| id := 5; status := PStr "queued"; name := None;
          head_branch := None; actor := None; run_number := None;
          head_commit := Some (NestedDict (Some PNone)); conclusion := None;
          created_at := None; updated_at := None; html_url := None |}
     = Raise TypeError.
Proof.
  split.
  - apply (proj1 (start_message_failures Sample.self _)). reflexivity.
  - apply (proj1 (proj2 (proj2 (start_message_failures Sample.self _)))
             PNone); [left; reflexivity | reflexivity | left; reflexivity].
Defined.
